(** * phylo.celluloid: clustering the mutations of a genotype matrix

    A shallow embedding of [src/phylo/celluloid.py]:
    - [_conflict_dissim], the dissimilarity handed to the k-modes clusterer,
      over a small model of the numpy operations it is written with
      ([np.vectorize] with broadcasting, [np.sum] along axis 1);
    - [cluster_mutations], as a computation in a state-and-exception monad
      over a store of Python objects, with the clusterer left abstract. *)

From Stdlib Require Import ZArith QArith Ascii String.
From stdpp Require Import base option list gmap strings sorting.

Open Scope string_scope.
Open Scope list_scope.
Open Scope Z_scope.

(** ** Exceptions *)

(** The exceptions the module can end with.  [ValueError] and
    [OverflowError] carry their message, [TypeError] the name of the type
    that was refused; [AxisError] and [IndexError] are numpy's, with the
    offending axis or index; [AttributeError] is an attribute or method
    missing from an object; [External] stands for whatever a collaborator
    (the clusterer) raises. *)
Inductive exn :=
  | ValueError (msg : string)
  | OverflowError (msg : string)
  | TypeError (type : string)
  | AxisError (axis ndim : nat)
  | IndexError (index : Z) (size : nat)
  | AttributeError (name : string)
  | External (what : string).

Inductive result (A : Type) :=
  | Ok (a : A)
  | Raise (e : exn).
Arguments Ok {A} a.
Arguments Raise {A} e.

Definition rbind {A B} (r : result A) (f : A → result B) : result B :=
  match r with
  | Ok a => f a
  | Raise e => Raise e
  end.

(** ** A model of the numpy arrays the module uses *)

Module np.

(** One- and two-dimensional arrays.  A two-dimensional array records its
    number of columns, so that the shapes (0, n) and (n, 0) exist. *)
Inductive ndarray (A : Type) :=
  | Arr1 (v : list A)
  | Arr2 (ncols : nat) (rows : list (list A)).
Arguments Arr1 {A} v.
Arguments Arr2 {A} ncols rows.

Definition size {A} (x : ndarray A) : nat :=
  match x with
  | Arr1 v => length v
  | Arr2 n rows => (length rows * n)%nat
  end.

(** Broadcasting of one dimension: equal extents, or one of them is 1. *)
Definition broadcast_dim (d1 d2 : nat) : option nat :=
  if (d1 =? d2)%nat then Some d1
  else if (d1 =? 1)%nat then Some d2
  else if (d2 =? 1)%nat then Some d1
  else None.

(** A list of extent 1 is repeated to the extent [d]; any other is kept. *)
Definition stretch {A} (d : nat) (l : list A) : list A :=
  match l with
  | [x] => replicate d x
  | _ => l
  end.

Definition broadcast_error {A} : result A :=
  Raise (ValueError "operands could not be broadcast together").

Definition zip_broadcast {A B C} (f : A → B → C)
    (u : list A) (v : list B) : result (list C) :=
  match broadcast_dim (length u) (length v) with
  | Some d => Ok (zip_with f (stretch d u) (stretch d v))
  | None => broadcast_error
  end.

(** The numbers of columns and the rows of the two operands seen as
    two-dimensional, after broadcasting both axes. *)
Definition broadcast2 {A B C} (f : A → B → C)
    (n1 : nat) (r1 : list (list A)) (n2 : nat) (r2 : list (list B))
    : result (ndarray C) :=
  match broadcast_dim (length r1) (length r2), broadcast_dim n1 n2 with
  | Some d, Some n =>
      Ok (Arr2 n (zip_with (λ u v, zip_with f (stretch n u) (stretch n v))
                    (stretch d r1) (stretch d r2)))
  | _, _ => broadcast_error
  end.

(** [np.vectorize(f)(a, b)] with [otypes] unset: numpy refuses operands of
    size 0 (it calls [f] on the first entries to find the output type),
    then applies [f] elementwise over the broadcast operands. *)
Definition vectorize {A B C} (f : A → B → C)
    (a : ndarray A) (b : ndarray B) : result (ndarray C) :=
  if ((size a =? 0) || (size b =? 0))%nat then
    Raise (ValueError
      "cannot call `vectorize` on size 0 inputs unless `otypes` is set")
  else
    match a, b with
    | Arr1 u, Arr1 v => rbind (zip_broadcast f u v) (λ w, Ok (Arr1 w))
    | Arr1 u, Arr2 n2 r2 => broadcast2 f (length u) [u] n2 r2
    | Arr2 n1 r1, Arr1 v => broadcast2 f n1 r1 (length v) [v]
    | Arr2 n1 r1, Arr2 n2 r2 => broadcast2 f n1 r1 n2 r2
    end.

(** Summing booleans counts the true ones. *)
Definition count_true (l : list bool) : Z :=
  foldr (λ (b : bool) acc, (if b then 1 else 0) + acc) 0 l.

(** [np.sum(x, axis = 1)] on an array of booleans. *)
Definition sum_axis1 (x : ndarray bool) : result (ndarray Z) :=
  match x with
  | Arr1 _ => Raise (AxisError 1 1)
  | Arr2 _ rows => Ok (Arr1 (count_true <$> rows))
  end.

(** [np.array(rows)] on a list of equally long rows; a ragged list is
    refused, the empty list gives the one-dimensional empty array. *)
Definition array {A} (rows : list (list A)) : result (ndarray A) :=
  match rows with
  | [] => Ok (Arr1 [])
  | r :: _ =>
      if forallb (λ r', (length r' =? length r)%nat) rows
      then Ok (Arr2 (length r) rows)
      else Raise (ValueError
             "setting an array element with a sequence")
  end.

(** [x.transpose()]: a one-dimensional array is its own transpose. *)
Definition column {A} (d : A) (rows : list (list A)) (j : nat) : list A :=
  (λ r, nth j r d) <$> rows.

Definition transpose (x : ndarray Z) : ndarray Z :=
  match x with
  | Arr1 v => Arr1 v
  | Arr2 n rows => Arr2 (length rows) (column 0 rows <$> seq 0 n)
  end.

(** [x[i]] on the first axis of a k x L grid given by its rows, negative
    indices counting from the end. *)
Definition getrow {A} (rows : list (list A)) (i : Z) : result (list A) :=
  let n := Z.of_nat (length rows) in
  let j := if i <? 0 then i + n else i in
  if (0 <=? j) && (j <? n) then
    match rows !! Z.to_nat j with
    | Some r => Ok r
    | None => Raise (IndexError i (length rows))
    end
  else Raise (IndexError i (length rows)).

End np.

(** ** The dissimilarity (lines 31-33) *)

(** The lambda of line 32: [ai != 2 and bi != 2 and ai != bi]. *)
Definition conflict (ai bi : Z) : bool :=
  negb (ai =? 2) && negb (bi =? 2) && negb (ai =? bi).

Definition _conflict_dissim (a b : np.ndarray Z) : result (np.ndarray Z) :=
  rbind (np.vectorize conflict a b) np.sum_axis1.

(** ** Python numbers (the arguments [k] and [number_of_iterations]) and
    strings *)

Module py.

(** An [int], a [bool], or a finite [float] given by its exact value. *)
Inductive num :=
  | Int (z : Z)
  | Bool (b : bool)
  | Float (q : Q).

Definition of_bool (b : bool) : Z := if b then 1 else 0.

(** [int(x)]: a float is truncated towards zero. *)
Definition int (x : num) : Z :=
  match x with
  | Int z => z
  | Bool b => of_bool b
  | Float q => Z.quot (Qnum q) (Z.pos (Qden q))
  end.

(** [i != x] and [x < i] for an [int] [i]; Python compares an [int] with a
    [float] exactly. *)
Definition ne (i : Z) (x : num) : bool :=
  match x with
  | Int z => negb (i =? z)
  | Bool b => negb (i =? of_bool b)
  | Float q => negb (Qeq_bool (inject_Z i) q)
  end.

Definition lt (x : num) (i : Z) : bool :=
  match x with
  | Int z => z <? i
  | Bool b => of_bool b <? i
  | Float q => negb (Qle_bool (inject_Z i) q)
  end.

(** What may be passed where a number is expected: a number, a float that
    is an infinity or a NaN, or [None]. *)
Inductive scalar :=
  | Num (x : num)
  | Inf (negative : bool)
  | NaN
  | PyNone.

(** [int(o)]: an infinity and a NaN have no integer part, and [None] is no
    number. *)
Definition int_scalar (o : scalar) : result Z :=
  match o with
  | Num x => Ok (int x)
  | Inf _ => Raise (OverflowError "cannot convert float infinity to integer")
  | NaN => Raise (ValueError "cannot convert float NaN to integer")
  | PyNone => Raise (TypeError "NoneType")
  end.

(** [i != o] and [o < i] for an [int] [i]: an [int] differs from an
    infinity, from a NaN and from [None]; a NaN is below nothing, and [None]
    is not ordered. *)
Definition ne_scalar (i : Z) (o : scalar) : bool :=
  match o with
  | Num x => ne i x
  | _ => true
  end.

Definition lt_scalar (o : scalar) (i : Z) : result bool :=
  match o with
  | Num x => Ok (lt x i)
  | Inf negative => Ok negative
  | NaN => Ok false
  | PyNone => Raise (TypeError "NoneType")
  end.

(** [','.join(l)] and [s.split(',')]. *)
Fixpoint join (sep : string) (l : list string) : string :=
  match l with
  | [] => ""
  | [x] => x
  | x :: rest => x +:+ sep +:+ join sep rest
  end.

Fixpoint split (c : ascii) (s : string) : list string :=
  match s with
  | EmptyString => [""]
  | String a s' =>
      if Ascii.eqb a c then "" :: split c s'
      else match split c s' with
           | h :: t => String a h :: t
           | [] => [String a ""]
           end
  end.

End py.

(** A number is a scalar. *)
Coercion py.Num : py.num >-> py.scalar.

(** ** The store of Python objects *)

Definition loc := positive.

(** The objects the function touches.  Lists of labels and arrays are
    mutable objects behind references; a genotype matrix holds references to
    its data and to its two label lists. *)
Inductive pyobj :=
  | PyList (items : list string)
  | PyArray (a : np.ndarray Z)
  | PyGenotypeMatrix (matrix cell_labels mutation_labels : loc).

(** The configuration of the clusterer built at lines 70-76. *)
Record KModes := {
  n_clusters : py.scalar;
  cat_dissim : np.ndarray Z → np.ndarray Z → result (np.ndarray Z);
  init : string;
  n_init : py.scalar;
  verbose : Z
}.

(** What is read from the clusterer after fitting (lines 81 and 89). *)
Record fitted := {
  labels_ : list Z;
  cluster_centroids_ : list (list Z)
}.

(** The state: the heap, and the calls made to the clusterer so far. *)
Record state := {
  heap : gmap loc pyobj;
  fit_calls : list (KModes * np.ndarray Z)
}.

Definition M (A : Type) : Type := state → result A * state.

Definition ret {A} (a : A) : M A := λ s, (Ok a, s).
Definition raise {A} (e : exn) : M A := λ s, (Raise e, s).
Definition bind {A B} (m : M A) (f : A → M B) : M B :=
  λ s, match m s with
       | (Ok a, s') => f a s'
       | (Raise e, s') => (Raise e, s')
       end.
Definition lift {A} (r : result A) : M A := λ s, (r, s).

Notation "'let*' x ':=' m 'in' k" := (bind m (λ x, k))
  (at level 10, x name, m at level 100, k at level 200,
   format "'[v' 'let*'  x  :=  m  'in' '/' k ']'").
Notation "'do' m 'in' k" := (bind m (λ _, k))
  (at level 10, m at level 100, k at level 200,
   format "'[v' 'do'  m  'in' '/' k ']'").

Definition load (l : loc) : M pyobj :=
  λ s, match heap s !! l with
       | Some o => (Ok o, s)
       | None => (Raise (External "dangling reference"), s)
       end.

Definition store (l : loc) (o : pyobj) : M unit :=
  λ s, (Ok (), {| heap := <[l := o]> (heap s); fit_calls := fit_calls s |}).

Definition alloc (o : pyobj) : M loc :=
  λ s, let l := fresh (dom (heap s)) in
       (Ok l, {| heap := <[l := o]> (heap s); fit_calls := fit_calls s |}).

(** Iterating or reading a list object. *)
Definition list_items (l : loc) : M (list string) :=
  let* o := load l in
  match o with
  | PyList items => ret items
  | _ => raise (External "TypeError")
  end.

(** [l.append(x)] *)
Definition list_append (l : loc) (x : string) : M unit :=
  let* items := list_items l in
  store l (PyList (items ++ [x])).

(** Modelled from the spec: the genotype matrix container (its class,
    core/genotypematrix.py, is not part of the sources).  [matrix()] returns
    the rectangular grid of the instance; [cell_labels] and [mutation_labels]
    are its label sequences; the constructor returns a new instance with the
    three fields it is given. *)
Definition gm_fields (g : loc) : M (loc * loc * loc) :=
  let* o := load g in
  match o with
  | PyGenotypeMatrix m c l => ret (m, c, l)
  | _ => raise (AttributeError "GenotypeMatrix")
  end.

Definition gm_matrix (g : loc) : M (np.ndarray Z) :=
  let* f := gm_fields g in
  let* o := load f.1.1 in
  match o with
  | PyArray a => ret a
  | _ => raise (External "TypeError")
  end.

Definition gm_cell_labels (g : loc) : M loc :=
  let* f := gm_fields g in ret f.1.2.

Definition gm_mutation_labels (g : loc) : M loc :=
  let* f := gm_fields g in ret f.2.

Definition GenotypeMatrix (matrix cell_labels mutation_labels : loc) : M loc :=
  alloc (PyGenotypeMatrix matrix cell_labels mutation_labels).

(** ** [cluster_mutations] (lines 35-96) *)

(** [defaultdict(list)]: the keys in insertion order, each with the reference
    to its list. *)
Definition defaultdict := list (Z * loc).

Fixpoint dict_get (d : defaultdict) (key : Z) : option loc :=
  match d with
  | [] => None
  | (key', l) :: d' => if decide (key' = key) then Some l else dict_get d' key
  end.

(** [d[key]]: a missing key gets a new empty list. *)
Definition dict_getitem (d : defaultdict) (key : Z) : M (defaultdict * loc) :=
  match dict_get d key with
  | Some l => ret (d, l)
  | None => let* l := alloc (PyList []) in ret (d ++ [(key, l)], l)
  end.

Definition keys (d : defaultdict) : list Z := fst <$> d.

(** [sorted(...)] on cluster ids. *)
Definition sorted (l : list Z) : list Z := merge_sort Z.le l.

(** The loop of lines 83-84.  At each round [zip] asks the label list for
    its next item, then the cluster ids for theirs, and stops as soon as
    one of the two is exhausted. *)
Fixpoint group_labels (mutation_labels : loc) (i : nat)
    (clusters_of_mutations : list Z) (d : defaultdict) : M defaultdict :=
  let* items := list_items mutation_labels in
  match items !! i with
  | None => ret d
  | Some mutation_label =>
      match clusters_of_mutations with
      | [] => ret d
      | mutation_cluster :: rest =>
          let* dl := dict_getitem d mutation_cluster in
          do list_append dl.2 mutation_label in
          group_labels mutation_labels (S i) rest dl.1
      end
  end.

(** A list comprehension whose body may read the store or raise. *)
Fixpoint for_each {A B} (f : A → M B) (l : list A) : M (list B) :=
  match l with
  | [] => ret []
  | x :: rest => let* y := f x in let* ys := for_each f rest in ret (y :: ys)
  end.

(** The test of lines 62 and 64, [int(o) != o or o < 1]: [int] may raise,
    and [or] evaluates its second operand only when the first is false. *)
Definition rejected (o : py.scalar) : result bool :=
  rbind (py.int_scalar o)
    (λ i, if py.ne_scalar i o then Ok true else py.lt_scalar o 1).

Section cluster_mutations.

(** The external clusterer: [KModes(...).fit_predict(points)], then its
    attributes [labels_] and [cluster_centroids_]; and how an f-string
    prints a scalar. *)
Variable fit_predict : KModes → np.ndarray Z → result fitted.
Variable format : py.scalar → string.

Definition km_fit_predict (km : KModes) (X : np.ndarray Z) : M fitted :=
  λ s, (fit_predict km X,
        {| heap := heap s; fit_calls := fit_calls s ++ [(km, X)] |}).

Definition clusters_message (k : py.scalar) : string :=
  "the number of clusters must be a positive integer, but "
    +:+ format k +:+ " is not.".

Definition iterations_message (number_of_iterations : py.scalar)
    : string :=
  "the number of iterations must be a positive integer, but "
    +:+ format number_of_iterations +:+ " is not.".

Definition cluster_mutations (genotype_matrix : loc)
    (k number_of_iterations : py.scalar) (verbose : bool) : M loc :=
  let* invalid := lift (rejected k) in
  do (if invalid
   then raise (ValueError (clusters_message k)) else ret ()) in
  let* invalid := lift (rejected number_of_iterations) in
  do (if invalid
   then raise (ValueError (iterations_message number_of_iterations))
   else ret ()) in
  let* matrix := gm_matrix genotype_matrix in
  let mutations_as_points := np.transpose matrix in
  let* mutation_labels := gm_mutation_labels genotype_matrix in
  let km := {| n_clusters := k;
               cat_dissim := _conflict_dissim;
               init := "huang";
               n_init := number_of_iterations;
               verbose := if verbose then 1 else 0 |} in
  let* clusters := km_fit_predict km mutations_as_points in
  let clusters_of_mutations := labels_ clusters in
  let* clustered_mutation_labels :=
    group_labels mutation_labels 0 clusters_of_mutations [] in
  let nonempty_clusters := keys clustered_mutation_labels in
  let cluster_centroids := cluster_centroids_ clusters in
  let* strings := for_each (λ cluster_id,
      let* dl := dict_getitem clustered_mutation_labels cluster_id in
      let* items := list_items dl.2 in
      ret (py.join "," items)) (sorted nonempty_clusters) in
  let* clustered_mutation_labels_strings := alloc (PyList strings) in
  let* out_matrix := for_each (λ cluster_id,
      lift (np.getrow cluster_centroids cluster_id))
    (sorted nonempty_clusters) in
  let* out_matrix := lift (np.array out_matrix) in
  let* out_matrix := alloc (PyArray (np.transpose out_matrix)) in
  let* cell_labels := gm_cell_labels genotype_matrix in
  GenotypeMatrix out_matrix cell_labels clustered_mutation_labels_strings.

End cluster_mutations.

(** ** Vocabulary of the statements *)

(** A conflict as the specification words it: position [i] holds two
    non-missing values that disagree. *)
Definition is_conflict (a b : list Z) (i : nat) : Prop :=
  nth i a 0 ≠ 2 ∧ nth i b 0 ≠ 2 ∧ nth i a 0 ≠ nth i b 0.

#[global] Instance is_conflict_dec a b i : Decision (is_conflict a b i).
Proof. unfold is_conflict. apply _. Defined.

Definition conflict_positions (a b : list Z) : list nat :=
  filter (is_conflict a b) (seq 0 (length a)).

Definition conflict_count (a b : list Z) : Z :=
  Z.of_nat (length (conflict_positions a b)).

(** What [zip] pairs: each label with the cluster of its column.  The members
    of cluster [c] are its labels in the original column order; the clusters
    that survive are those met at least once, in ascending order. *)
Definition members (pairs : list (string * Z)) (c : Z) : list string :=
  (filter (λ p, p.2 = c) pairs).*1.

Definition cluster_ids (pairs : list (string * Z)) : list Z :=
  sorted (remove_dups (pairs.*2)).

(** Modelled from the spec: the contract of the external clusterer (the
    kmodes package is not part of the sources).  Given N points of
    dimension L and [k] clusters asked for, it returns N cluster ids in
    0..k-1 and a k x L grid of centroids. *)
Definition clusterer_contract (km : KModes) (X : np.ndarray Z) (f : fitted)
    : Prop :=
  match X, n_clusters km with
  | np.Arr2 L points, py.Num k =>
      length (labels_ f) = length points
      ∧ Forall (λ c, 0 ≤ c < py.int k) (labels_ f)
      ∧ Z.of_nat (length (cluster_centroids_ f)) = py.int k
      ∧ Forall (λ r, length r = L) (cluster_centroids_ f)
  | _, _ => False
  end.

(** A number is a positive integer when its value is one, whatever its
    Python type. *)
Definition value (x : py.num) : Q :=
  match x with
  | py.Int z => inject_Z z
  | py.Bool b => inject_Z (py.of_bool b)
  | py.Float q => q
  end.

Definition positive_integer (x : py.num) : Prop :=
  ∃ z : Z, 1 ≤ z ∧ Qeq (value x) (inject_Z z).

(** The clusterer configured at lines 70-76. *)
Definition km_of (k n : py.scalar) (verbose : bool) : KModes :=
  {| n_clusters := k; cat_dissim := _conflict_dissim; init := "huang";
     n_init := n; verbose := if verbose then 1 else 0 |}.

(** Modelled from the spec: a genotype matrix in the store and its
    invariant (the container class is not part of the sources): a grid with
    one label per column and one per row, all behind references. *)
Definition genotype_matrix_at (s : state) (g lm lc ll : loc)
    (ncols : nat) (rows : list (list Z)) (cells labels : list string) : Prop :=
  heap s !! g = Some (PyGenotypeMatrix lm lc ll)
  ∧ heap s !! lm = Some (PyArray (np.Arr2 ncols rows))
  ∧ heap s !! lc = Some (PyList cells)
  ∧ heap s !! ll = Some (PyList labels)
  ∧ Forall (λ r, length r = ncols) rows
  ∧ length labels = ncols
  ∧ length cells = length rows.

(** The label holds the character. *)
Fixpoint contains (c : ascii) (s : string) : bool :=
  match s with
  | EmptyString => false
  | String a s' => Ascii.eqb a c || contains c s'
  end.

(** ** Two small instances *)

(** Two cells and three mutations in a store, and a clusterer that puts the
    first and the third mutation in cluster 1 and the second in cluster 0. *)
Definition example_state : state :=
  {| heap := list_to_map
       [(1%positive, PyGenotypeMatrix 2%positive 3%positive 4%positive);
        (2%positive, PyArray (np.Arr2 3 [[0; 1; 2]; [1; 1; 0]]));
        (3%positive, PyList ["c1"; "c2"]);
        (4%positive, PyList ["m1"; "m2"; "m3"])];
     fit_calls := [] |}.

Definition example_clusterer (km : KModes) (X : np.ndarray Z)
    : result fitted :=
  Ok {| labels_ := [1; 0; 1]; cluster_centroids_ := [[0; 1]; [1; 1]] |}.

(** One cell and one mutation whose label holds a comma. *)
Definition comma_state : state :=
  {| heap := list_to_map
       [(1%positive, PyGenotypeMatrix 2%positive 3%positive 4%positive);
        (2%positive, PyArray (np.Arr2 1 [[1]]));
        (3%positive, PyList ["c1"]);
        (4%positive, PyList ["a,b"])];
     fit_calls := [] |}.

Definition comma_clusterer (km : KModes) (X : np.ndarray Z)
    : result fitted :=
  Ok {| labels_ := [0]; cluster_centroids_ := [[1]] |}.

(** A stand-in for the printing of numbers in the two messages. *)
Definition example_format (x : py.scalar) : string :=
  match x with
  | py.Num (py.Int 0) => "0"
  | py.Num (py.Float q) => if Qeq_bool q (5 # 2) then "2.5" else "?"
  | py.Inf false => "inf"
  | _ => "?"
  end.

Definition example_run (k n : py.scalar) : result loc * state :=
  cluster_mutations example_clusterer example_format 1%positive k n false
    example_state.

(** ** Other clusterers for the first instance *)

(** One that fails, one that returns fewer ids than there are mutations, one
    that returns an id without centroid, one that returns no id at all. *)
Definition failing_clusterer (km : KModes) (X : np.ndarray Z)
    : result fitted :=
  Raise (External "kmodes").

Definition short_clusterer (km : KModes) (X : np.ndarray Z)
    : result fitted :=
  Ok {| labels_ := [1; 0]; cluster_centroids_ := [[0; 1]; [1; 1]] |}.

Definition stray_clusterer (km : KModes) (X : np.ndarray Z)
    : result fitted :=
  Ok {| labels_ := [0; 5; 0]; cluster_centroids_ := [[0; 1]; [1; 1]] |}.

Definition empty_clusterer (km : KModes) (X : np.ndarray Z)
    : result fitted :=
  Ok {| labels_ := []; cluster_centroids_ := [] |}.

(** One cluster per mutation, in another order; every mutation in the one
    cluster; every mutation its own cluster and its own centroid. *)
Definition distinct_clusterer (km : KModes) (X : np.ndarray Z)
    : result fitted :=
  Ok {| labels_ := [2; 0; 1];
        cluster_centroids_ := [[1; 1]; [2; 0]; [0; 1]] |}.


Definition identity_clusterer (km : KModes) (X : np.ndarray Z)
    : result fitted :=
  Ok {| labels_ := [0; 1; 2];
        cluster_centroids_ := [[0; 1]; [1; 1]; [2; 0]] |}.

(** ** Reasoning about computations *)

(** [frames h0 P m Q]: run from a state that extends [h0] and satisfies [P],
    [m] leaves every object of [h0] as it was, whether it returns or raises,
    and a returned value satisfies [Q]. *)
Definition frames {A} (h0 : gmap loc pyobj) (P : state → Prop) (m : M A)
    (Q : A → state → Prop) : Prop :=
  ∀ s, h0 ⊆ heap s → P s →
    h0 ⊆ heap (m s).2 ∧ ∀ a, (m s).1 = Ok a → Q a (m s).2.

(** Every list of the dictionary was allocated after [h0]. *)
Definition fresh_dict (h0 : gmap loc pyobj) (d : defaultdict) : Prop :=
  Forall (λ e, e.2 ∉ dom h0) d.

(** A computation that does not call the clusterer. *)
Definition keeps_calls {A} (m : M A) : Prop :=
  ∀ s, fit_calls (m s).2 = fit_calls s.

(** The dictionary of the loop after the pairs [pairs] have been met: its
    lists are new objects holding the members of their clusters. *)
Definition dict_inv (h0 : gmap loc pyobj) (pairs : list (string * Z))
    (d : defaultdict) (h : gmap loc pyobj) : Prop :=
  h0 ⊆ h
  ∧ NoDup (d.*1) ∧ NoDup (d.*2)
  ∧ (∀ c l, (c, l) ∈ d →
       (l ∉ dom h0) ∧ h !! l = Some (PyList (members pairs c))
       ∧ c ∈ pairs.*2)
  ∧ (∀ c, c ∈ pairs.*2 → c ∈ d.*1).

(** * Properties *)

(** ** The dissimilarity *)

Section dissimilarity.

Import np.

Lemma conflict_sym x y : conflict x y = conflict y x.
Proof.
  unfold conflict.
  destruct (Z.eqb_spec x 2), (Z.eqb_spec y 2), (Z.eqb_spec x y),
    (Z.eqb_spec y x); simpl; congruence.
Qed.

Lemma conflict_true x y : conflict x y = true ↔ x ≠ 2 ∧ y ≠ 2 ∧ x ≠ y.
Proof.
  unfold conflict.
  destruct (Z.eqb_spec x 2), (Z.eqb_spec y 2), (Z.eqb_spec x y);
    simpl; intuition congruence.
Qed.

Lemma length_filter_seq_S (P : nat → Prop) `{!∀ i, Decision (P i)} s n :
  length (filter P (seq (S s) n))
  = length (filter (λ i, P (S i)) (seq s n)).
Proof.
  revert s. induction n as [|n IH]; intros s; [done|].
  cbn [seq]. rewrite !filter_cons.
  destruct (decide (P (S s))); cbn [length]; by rewrite IH.
Qed.

Lemma conflict_count_cons x y a b :
  conflict_count (x :: a) (y :: b)
  = (if conflict x y then 1 else 0) + conflict_count a b.
Proof.
  unfold conflict_count, conflict_positions. cbn [length seq].
  rewrite filter_cons, Z.add_comm.
  assert (length (filter (is_conflict (x :: a) (y :: b)) (seq 1 (length a)))
          = length (filter (is_conflict a b) (seq 0 (length a)))) as Hlen.
  { rewrite length_filter_seq_S. f_equal; by apply list_filter_iff. }
  destruct (decide (is_conflict (x :: a) (y :: b) 0)) as [Hc|Hc];
    unfold is_conflict in Hc; cbn [nth] in Hc;
    rewrite <- conflict_true in Hc.
  - rewrite Hc. cbn [length]. rewrite Hlen. lia.
  - destruct (conflict x y); [done|]. rewrite Hlen. lia.
Qed.

(** What numpy sums along a row is the count of the specification. *)
Lemma count_true_conflict a b :
  length a = length b →
  count_true (zip_with conflict a b) = conflict_count a b.
Proof.
  revert b. induction a as [|x a IH]; intros [|y b] Hlen;
    try done; simplify_eq/=.
  rewrite conflict_count_cons, <- IH by done. done.
Qed.

Lemma conflict_count_nonneg a b : 0 ≤ conflict_count a b.
Proof. unfold conflict_count. lia. Qed.

Lemma conflict_count_sym a b :
  length a = length b → conflict_count a b = conflict_count b a.
Proof.
  intros Hlen. rewrite <- !count_true_conflict by done.
  f_equal. rewrite <- zip_with_flip. apply zip_with_ext; [|done..].
  intros. apply conflict_sym.
Qed.

Lemma stretch_same {A} (l : list A) : stretch (length l) l = l.
Proof. by destruct l as [|x [|y l]]. Qed.

Lemma broadcast_dim_same d : broadcast_dim d d = Some d.
Proof. unfold broadcast_dim. by rewrite Nat.eqb_refl. Qed.

Lemma broadcast_dim_1_l d : broadcast_dim 1 d = Some d.
Proof.
  unfold broadcast_dim. destruct (Nat.eqb_spec 1 d); [by subst|done].
Qed.

Lemma broadcast_dim_comm d1 d2 : broadcast_dim d1 d2 = broadcast_dim d2 d1.
Proof.
  unfold broadcast_dim.
  destruct (Nat.eqb_spec d1 d2), (Nat.eqb_spec d2 d1),
    (Nat.eqb_spec d1 1), (Nat.eqb_spec d2 1); congruence.
Qed.

(** The batched form: one vector against a grid of candidate rows. *)
Lemma conflict_dissim_rows a rows :
  a ≠ [] → rows ≠ [] → Forall (λ b, length b = length a) rows →
  _conflict_dissim (Arr1 a) (Arr2 (length a) rows)
  = Ok (Arr1 (conflict_count a <$> rows)).
Proof.
  intros Ha Hrows Hlen. unfold _conflict_dissim, vectorize. cbn [size].
  destruct (Nat.eqb_spec (length a) 0) as [E|_].
  { by destruct a. }
  destruct (Nat.eqb_spec (length rows * length a) 0) as [E|_].
  { destruct a, rows; simplify_eq/=; lia. }
  cbn [orb]. unfold broadcast2. cbn [length].
  rewrite broadcast_dim_1_l, broadcast_dim_same. cbn [rbind sum_axis1].
  do 2 f_equal. cbn [stretch].
  replace (stretch (length rows) rows) with rows
    by (by rewrite stretch_same).
  rewrite zip_with_replicate_l by done.
  rewrite <- list_fmap_compose. apply Forall_fmap_ext_1.
  eapply Forall_impl; [exact Hlen|]. intros b Hb. cbn.
  rewrite stretch_same. rewrite <- Hb at 1. rewrite stretch_same.
  by apply count_true_conflict.
Qed.

Lemma zip_with_comm {A C} (g : A → A → C) l k :
  (∀ x y, g x y = g y x) → zip_with g l k = zip_with g k l.
Proof.
  intros Hg. revert k. induction l as [|x l IH]; intros [|y k]; try done.
  cbn. by rewrite Hg, IH.
Qed.

Lemma broadcast2_comm {A C} (g : A → A → C) n1 r1 n2 r2 :
  (∀ x y, g x y = g y x) →
  broadcast2 g n1 r1 n2 r2 = broadcast2 g n2 r2 n1 r1.
Proof.
  intros Hg. unfold broadcast2.
  rewrite (broadcast_dim_comm (length r1)), (broadcast_dim_comm n1).
  destruct (broadcast_dim (length r2) (length r1)); [|done].
  destruct (broadcast_dim n2 n1); [|done].
  do 2 f_equal. apply zip_with_comm. intros u v. by apply zip_with_comm.
Qed.

Lemma vectorize_comm {A C} (g : A → A → C) x y :
  (∀ x y, g x y = g y x) → vectorize g x y = vectorize g y x.
Proof.
  intros Hg. unfold vectorize. rewrite orb_comm.
  destruct (_ || _); [done|].
  destruct x, y; auto using broadcast2_comm.
  unfold zip_broadcast. rewrite broadcast_dim_comm.
  destruct (broadcast_dim _ _); [|done]. cbn.
  do 2 f_equal. by apply zip_with_comm.
Qed.

(** The two operands can be exchanged, whatever their shapes. *)
Lemma conflict_dissim_comm x y : _conflict_dissim x y = _conflict_dissim y x.
Proof.
  unfold _conflict_dissim. by rewrite (vectorize_comm _ x y conflict_sym).
Qed.

(** Two one-dimensional operands never give a value. *)
Lemma conflict_dissim_vectors_raise a b :
  ∃ e, _conflict_dissim (Arr1 a) (Arr1 b) = Raise e.
Proof.
  unfold _conflict_dissim, vectorize. destruct (_ || _); [by eexists|].
  unfold zip_broadcast. destruct (broadcast_dim _ _); by eexists.
Qed.

Lemma conflict_dissim_vectors_axis a b :
  a ≠ [] → length a = length b →
  _conflict_dissim (Arr1 a) (Arr1 b) = Raise (AxisError 1 1).
Proof.
  intros Ha Hlen. unfold _conflict_dissim, vectorize. cbn [size].
  rewrite <- Hlen. destruct (Nat.eqb_spec (length a) 0) as [E|_].
  { by destruct a. }
  cbn [orb]. unfold zip_broadcast.
  by rewrite <- Hlen, broadcast_dim_same.
Qed.

Lemma length_filter_0 {A} (P : A → Prop) `{!∀ x, Decision (P x)} l :
  length (filter P l) = 0%nat ↔ Forall (λ x, ¬ P x) l.
Proof.
  induction l as [|x l IH]; [by split|].
  rewrite filter_cons, Forall_cons.
  destruct (decide (P x)); cbn [length]; [|tauto].
  split; [done|tauto].
Qed.

Lemma is_conflict_out a b i :
  length a = length b → (length a ≤ i)%nat → ¬ is_conflict a b i.
Proof.
  intros Hlen Hi (_ & _ & Hne). apply Hne.
  rewrite !nth_overflow by lia. done.
Qed.

Lemma conflict_count_0 a b :
  length a = length b →
  conflict_count a b = 0 ↔ ∀ i, ¬ is_conflict a b i.
Proof.
  intros Hlen. unfold conflict_count, conflict_positions.
  rewrite <- Nat2Z.inj_0, Nat2Z.inj_iff, length_filter_0, Forall_forall.
  split; intros H i; [|by auto].
  destruct (decide (i < length a)%nat) as [Hi|Hi].
  - apply H, elem_of_seq. lia.
  - apply is_conflict_out; [done|lia].
Qed.

Lemma conflict_count_missing a b :
  length a = length b →
  Forall (λ x, x = 2) a ∨ Forall (λ x, x = 2) b →
  conflict_count a b = 0.
Proof.
  intros Hlen Hmiss. apply conflict_count_0; [done|]. intros i.
  destruct (decide (i < length a)%nat) as [Hi|Hi];
    [|apply is_conflict_out; [done|lia]].
  intros (Ha & Hb & _).
  destruct Hmiss as [H|H]; rewrite Forall_nth in H.
  - apply Ha, H. lia.
  - apply Hb, H. lia.
Qed.

End dissimilarity.

(** ** The store is only extended *)

Section frame.

Variable h0 : gmap loc pyobj.

Lemma frames_bind {A B} P (m : M A) Q (f : A → M B) R :
  frames h0 P m Q → (∀ a, frames h0 (Q a) (f a) R) →
  frames h0 P (bind m f) R.
Proof.
  intros Hm Hf s Hs HP. unfold bind.
  destruct (Hm s Hs HP) as [Hext HQ].
  destruct (m s) as [[a|e] s']; cbn in *; [|done].
  by apply Hf; [|apply HQ].
Qed.

Lemma frames_weaken {A} (P P' : state → Prop) (m : M A)
    (Q Q' : A → state → Prop) :
  frames h0 P m Q → (∀ s, P' s → P s) → (∀ a s, Q a s → Q' a s) →
  frames h0 P' m Q'.
Proof.
  intros Hm HP HQ s Hs HP'. destruct (Hm s Hs (HP _ HP')) as [? H].
  split; [done|]. intros a Ha. by apply HQ, H.
Qed.

Lemma frames_ret {A} (P : state → Prop) (a : A) :
  frames h0 P (ret a) (λ a' s, a' = a ∧ P s).
Proof. intros s Hs HP. split; [done|]. by intros a' [= <-]. Qed.

Ltac fr_ret :=
  eapply frames_weaken; [apply frames_ret|intros ? HP; exact HP|].

Lemma frames_raise {A} P e (Q : A → state → Prop) :
  frames h0 P (raise e) Q.
Proof. by intros s Hs HP. Qed.

Lemma frames_lift {A} (P : state → Prop) (r : result A) :
  frames h0 P (lift r) (λ a s, r = Ok a ∧ P s).
Proof. intros s Hs HP. split; [done|]. cbn. by intros a ->. Qed.

Lemma frames_pure {A} (φ : Prop) (P : state → Prop) (m : M A) Q :
  (∀ s, P s → φ) → (φ → frames h0 (λ _, True) m Q) → frames h0 P m Q.
Proof. intros Hφ Hm s Hs HP. apply Hm; eauto. Qed.

Lemma frames_load P l :
  frames h0 P (load l) (λ o s, heap s !! l = Some o ∧ P s).
Proof.
  intros s Hs HP. unfold load.
  destruct (heap s !! l) as [o|] eqn:Hl; cbn; [|done].
  split; [done|]. by intros a [= <-].
Qed.

Lemma frames_alloc o :
  frames h0 (λ _, True) (alloc o)
    (λ l s, (l ∉ dom h0) ∧ heap s !! l = Some o).
Proof.
  intros s Hs _. unfold alloc. cbn.
  assert (fresh (dom (heap s)) ∉ dom (heap s)) as Hfresh by apply is_fresh.
  assert (fresh (dom (heap s)) ∉ dom h0) as Hl.
  { intros Hin. apply Hfresh. by eapply subseteq_dom. }
  split.
  - apply insert_subseteq_r; [|done]. by apply not_elem_of_dom.
  - intros a [= <-]. split; [done|]. apply lookup_insert_eq.
Qed.

Lemma frames_store l o :
  l ∉ dom h0 → frames h0 (λ _, True) (store l o) (λ _ _, True).
Proof.
  intros Hl s Hs _. unfold store. cbn. split; [|done].
  apply insert_subseteq_r; [|done]. by apply not_elem_of_dom.
Qed.

Lemma frames_list_items P l :
  frames h0 P (list_items l)
    (λ items s, heap s !! l = Some (PyList items) ∧ P s).
Proof.
  unfold list_items. eapply frames_bind; [apply frames_load|].
  intros [items|a|m c ll]; try apply frames_raise.
  fr_ret.
  by intros a s [-> ?].
Qed.

Lemma frames_list_append l x :
  l ∉ dom h0 → frames h0 (λ _, True) (list_append l x) (λ _ _, True).
Proof.
  intros Hl. unfold list_append.
  eapply frames_bind; [apply frames_list_items|].
  intros items. eapply frames_weaken; [by apply frames_store|done..].
Qed.

Lemma frames_fit_predict fit_predict km X :
  frames h0 (λ _, True) (km_fit_predict fit_predict km X) (λ _ _, True).
Proof. by intros s Hs _. Qed.

Lemma dict_get_Some d key l : dict_get d key = Some l → (key, l) ∈ d.
Proof.
  induction d as [|[key' l'] d IH]; [done|]. cbn.
  case_decide; [intros [= ->]; subst; left|right; auto].
Qed.

Lemma dict_get_None d key : dict_get d key = None → key ∉ d.*1.
Proof.
  induction d as [|[key' l'] d IH]; cbn; [intros _; apply not_elem_of_nil|].
  case_decide; [done|]. intros Hget. apply not_elem_of_cons. auto.
Qed.

Lemma frames_dict_getitem d key :
  fresh_dict h0 d →
  frames h0 (λ _, True) (dict_getitem d key)
    (λ dl _, fresh_dict h0 dl.1 ∧ dl.2 ∉ dom h0).
Proof.
  intros Hd. unfold dict_getitem.
  destruct (dict_get d key) as [l|] eqn:Hget.
  - fr_ret.
    intros a s [-> _]. split; [done|].
    apply dict_get_Some in Hget.
    by apply (proj1 (Forall_forall _ _) Hd (key, l)).
  - eapply frames_bind; [apply frames_alloc|]. intros l.
    fr_ret.
    intros a s [-> [Hl _]]. split; [|done].
    apply Forall_app. split; [done|]. by apply Forall_singleton.
Qed.

Lemma frames_group_labels mutation_labels cs : ∀ i d,
  fresh_dict h0 d →
  frames h0 (λ _, True) (group_labels mutation_labels i cs d)
    (λ d' _, fresh_dict h0 d').
Proof.
  induction cs as [|c cs IH]; intros i d Hd; cbn [group_labels];
    (eapply frames_bind; [apply frames_list_items|]); intros items;
    (destruct (items !! i) as [label|];
      [|fr_ret; by intros a s [-> _]]).
  - fr_ret. by intros a s [-> _].
  - eapply frames_bind.
    { eapply frames_weaken; [by apply frames_dict_getitem|done..]. }
    intros [d' l]. cbn.
    apply (frames_pure (fresh_dict h0 d' ∧ l ∉ dom h0)); [done|].
    intros [Hd' Hl].
    eapply frames_bind.
    { eapply frames_weaken; [by apply (frames_list_append l label)|done..]. }
    intros []. eapply frames_weaken; [by apply IH|done..].
Qed.

Lemma frames_for_each {A B} (f : A → M B) l :
  (∀ x, frames h0 (λ _, True) (f x) (λ _ _, True)) →
  frames h0 (λ _, True) (for_each f l) (λ _ _, True).
Proof.
  intros Hf. induction l as [|x l IH]; cbn [for_each].
  { fr_ret; done. }
  eapply frames_bind; [apply Hf|]. intros y.
  eapply frames_bind; [apply IH|]. intros ys.
  fr_ret; done.
Qed.

Lemma frames_gm_fields P g :
  frames h0 P (gm_fields g)
    (λ f s, heap s !! g = Some (PyGenotypeMatrix f.1.1 f.1.2 f.2) ∧ P s).
Proof.
  unfold gm_fields. eapply frames_bind; [apply frames_load|].
  intros [items|a|m c l]; try apply frames_raise.
  fr_ret.
  by intros a s [-> ?].
Qed.

Lemma frames_gm_matrix g :
  frames h0 (λ _, True) (gm_matrix g) (λ _ _, True).
Proof.
  unfold gm_matrix. eapply frames_bind; [apply frames_gm_fields|].
  intros f. eapply frames_bind; [apply frames_load|].
  intros [items|a|m c l]; try apply frames_raise.
  fr_ret; done.
Qed.

Lemma frames_gm_mutation_labels g :
  frames h0 (λ _, True) (gm_mutation_labels g) (λ _ _, True).
Proof.
  unfold gm_mutation_labels. eapply frames_bind; [apply frames_gm_fields|].
  intros f. fr_ret; done.
Qed.

Lemma frames_gm_cell_labels g :
  frames h0 (λ _, True) (gm_cell_labels g)
    (λ c s, ∃ m l, heap s !! g = Some (PyGenotypeMatrix m c l)).
Proof.
  unfold gm_cell_labels. eapply frames_bind; [apply frames_gm_fields|].
  intros f. fr_ret.
  intros a s [-> [? _]]. eauto.
Qed.

(** Whatever the clusterer answers and however the call ends, the objects
    of [h0] are untouched; a returned reference is new and points to a
    genotype matrix built on a new array and a new list of labels. *)
Lemma frames_cluster_mutations fit_predict format g k n verbose :
  frames h0 (λ _, True)
    (cluster_mutations fit_predict format g k n verbose)
    (λ r s, (r ∉ dom h0) ∧ ∃ m c l c0 m0 l0,
       heap s !! r = Some (PyGenotypeMatrix m c l)
       ∧ (m ∉ dom h0) ∧ (l ∉ dom h0)
       ∧ heap s !! g = Some (PyGenotypeMatrix m0 c0 l0) ∧ c = c0).
Proof.
  unfold cluster_mutations.
  eapply frames_bind with (Q := λ _ _, True).
  { eapply frames_weaken; [apply frames_lift|intros ? HP; exact HP|done]. }
  intros invalid_k. eapply frames_bind with (Q := λ _ _, True).
  { destruct invalid_k; [apply frames_raise|]. fr_ret; done. }
  intros []. eapply frames_bind with (Q := λ _ _, True).
  { eapply frames_weaken; [apply frames_lift|intros ? HP; exact HP|done]. }
  intros invalid_n. eapply frames_bind with (Q := λ _ _, True).
  { destruct invalid_n; [apply frames_raise|]. fr_ret; done. }
  intros []. eapply frames_bind; [apply frames_gm_matrix|]. intros matrix.
  eapply frames_bind; [apply frames_gm_mutation_labels|]. intros ml.
  eapply frames_bind; [apply frames_fit_predict|]. intros clusters.
  eapply frames_bind with (Q := λ _ _, True).
  { eapply frames_weaken;
      [apply frames_group_labels; by apply Forall_nil|done..]. }
  intros d. eapply frames_bind with (Q := λ _ _, True).
  { apply frames_for_each. intros c.
    eapply frames_bind with (Q := λ _ _, True).
    { unfold dict_getitem. destruct (dict_get d c).
      - fr_ret; done.
      - eapply frames_bind; [apply frames_alloc|]. intros l. fr_ret; done. }
    intros dl. eapply frames_bind with (Q := λ _ _, True).
    { eapply frames_weaken; [apply frames_list_items|intros ? HP; exact HP|done]. }
    intros items. fr_ret; done. }
  intros strings. eapply frames_bind.
  { eapply frames_weaken; [apply frames_alloc|done|].
    intros l s H. exact H. }
  intros l. cbn beta.
  apply (frames_pure (l ∉ dom h0)); [by intros s []|]. intros Hl.
  eapply frames_bind with (Q := λ _ _, True).
  { apply frames_for_each. intros c.
    eapply frames_weaken; [apply frames_lift|intros ? HP; exact HP|done]. }
  intros rows. eapply frames_bind with (Q := λ _ _, True).
  { eapply frames_weaken; [apply frames_lift|intros ? HP; exact HP|done]. }
  intros arr. eapply frames_bind.
  { eapply frames_weaken; [apply frames_alloc|done|].
    intros m s H. exact H. }
  intros m. cbn beta.
  apply (frames_pure (m ∉ dom h0)); [by intros s []|]. intros Hm.
  eapply frames_bind.
  { eapply frames_weaken; [apply frames_gm_cell_labels|done|].
    intros c s H. exact H. }
  intros c. unfold GenotypeMatrix.
  intros s Hs (m0 & l0 & Hg).
  destruct (frames_alloc (PyGenotypeMatrix m c l) s Hs I) as [Hext Hr].
  split; [done|]. intros r Hret. destruct (Hr r Hret) as [Hfresh Hlook].
  split; [done|]. exists m, c, l, c, m0, l0.
  repeat split; try done.
  unfold alloc in Hret |- *. cbn in Hret |- *. simplify_eq.
  rewrite lookup_insert_ne; [done|].
  intros Heq. apply (is_fresh (dom (heap s))). rewrite Heq.
  by eapply elem_of_dom_2.
Qed.

End frame.

(** ** What a run computes *)

Section grouping.

Lemma bind_Ok {A B} (m : M A) (f : A → M B) s a s' :
  m s = (Ok a, s') → bind m f s = f a s'.
Proof. unfold bind. by intros ->. Qed.

Lemma load_Ok l o s : heap s !! l = Some o → load l s = (Ok o, s).
Proof. unfold load. by intros ->. Qed.

Lemma list_items_Ok l items s :
  heap s !! l = Some (PyList items) → list_items l s = (Ok items, s).
Proof.
  intros Hl. unfold list_items. by rewrite (bind_Ok _ _ _ _ _ (load_Ok _ _ _ Hl)).
Qed.

Lemma members_app pairs label c c' :
  members (pairs ++ [(label, c)]) c'
  = members pairs c' ++ (if decide (c = c') then [label] else []).
Proof.
  unfold members. rewrite filter_app, fmap_app. f_equal.
  rewrite filter_cons, filter_nil. cbn. by case_decide.
Qed.

Lemma members_nil pairs c : c ∉ pairs.*2 → members pairs c = [].
Proof.
  unfold members. induction pairs as [|[label c'] pairs IH]; [done|].
  cbn. rewrite not_elem_of_cons. intros [Hne Hc].
  rewrite decide_False by congruence. auto.
Qed.

Lemma members_not_nil pairs c : c ∈ pairs.*2 → members pairs c ≠ [].
Proof.
  unfold members. intros ([label c'] & -> & Hin)%list_elem_of_fmap Hnil.
  apply fmap_nil_inv in Hnil.
  by eapply (filter_nil_not_elem_of _ _ (label, c')) in Hnil.
Qed.

Lemma NoDup_fst_eq {A B} (d : list (A * B)) x y1 y2 :
  NoDup (d.*1) → (x, y1) ∈ d → (x, y2) ∈ d → y1 = y2.
Proof.
  induction d as [|[x' y'] d IH]; [by intros _ ?%elem_of_nil|].
  cbn. rewrite NoDup_cons, !elem_of_cons. intros [Hx Hd] [H1|H1] [H2|H2];
    simplify_eq; auto.
  - destruct Hx. by apply (list_elem_of_fmap_2 fst _ (x', y2)).
  - destruct Hx. by apply (list_elem_of_fmap_2 fst _ (x', y1)).
Qed.

Lemma NoDup_snd_eq {A B} (d : list (A * B)) x1 x2 y :
  NoDup (d.*2) → (x1, y) ∈ d → (x2, y) ∈ d → x1 = x2.
Proof.
  induction d as [|[x' y'] d IH]; [by intros _ ?%elem_of_nil|].
  cbn. rewrite NoDup_cons, !elem_of_cons. intros [Hx Hd] [H1|H1] [H2|H2];
    simplify_eq; auto.
  - destruct Hx. by apply (list_elem_of_fmap_2 snd _ (x2, y')).
  - destruct Hx. by apply (list_elem_of_fmap_2 snd _ (x1, y')).
Qed.

Lemma dict_get_elem d key l :
  NoDup (d.*1) → (key, l) ∈ d → dict_get d key = Some l.
Proof.
  intros Hd Hin. destruct (dict_get d key) as [l'|] eqn:Hget.
  - f_equal. apply dict_get_Some in Hget. by eapply NoDup_fst_eq.
  - apply dict_get_None in Hget. destruct Hget.
    by apply (list_elem_of_fmap_2 fst _ (key, l)).
Qed.

Lemma dict_inv_nil h : dict_inv h [] [] h.
Proof.
  split; [done|]. do 2 (split; [apply NoDup_nil_2|]). split.
  - by intros c l ?%elem_of_nil.
  - by intros c ?%elem_of_nil.
Qed.

(** One round of the loop: [clustered_mutation_labels[c].append(label)]. *)
Lemma group_step {B} h0 pairs d s c label (K : defaultdict → M B) :
  dict_inv h0 pairs d (heap s) →
  ∃ d' s',
    (let* dl := dict_getitem d c in
     do list_append dl.2 label in K dl.1) s = K d' s'
    ∧ dict_inv h0 (pairs ++ [(label, c)]) d' (heap s')
    ∧ fit_calls s' = fit_calls s.
Proof.
  intros (Hext & Hk & Hl & Hcont & Hcov).
  unfold dict_getitem. destruct (dict_get d c) as [l|] eqn:Hget.
  - apply dict_get_Some in Hget.
    destruct (Hcont _ _ Hget) as (Hfresh & Hlook & Hin).
    exists d, {| heap := <[l := PyList (members pairs c ++ [label])]> (heap s);
                 fit_calls := fit_calls s |}.
    split; [|split; [|done]].
    { unfold bind, ret, list_append, list_items, bind, load. cbn.
      by rewrite Hlook. }
    cbn. split; [|split; [done|split; [done|split]]].
    + apply insert_subseteq_r; [by apply not_elem_of_dom|done].
    + intros c' l' Hin'. destruct (Hcont _ _ Hin') as (? & Hlook' & ?).
      split; [done|]. rewrite members_app, fmap_app, elem_of_app.
      split; [|by left]. destruct (decide (l' = l)) as [->|Hne].
      * rewrite (NoDup_snd_eq _ _ _ _ Hl Hin' Hget), lookup_insert_eq.
        by rewrite decide_True.
      * rewrite lookup_insert_ne, Hlook' by done.
        rewrite decide_False, app_nil_r; [done|]. intros <-.
        apply Hne. by eapply NoDup_fst_eq.
    + intros c'. rewrite fmap_app, elem_of_app. intros [?|Hc']; [auto|].
      apply list_elem_of_singleton in Hc'. cbn in Hc'. subst c'.
      by apply (list_elem_of_fmap_2 fst _ (c, l)).
  - apply dict_get_None in Hget.
    set (l := fresh (dom (heap s))).
    assert (l ∉ dom (heap s)) as Hfresh by apply is_fresh.
    assert (l ∉ dom h0) as Hfresh0.
    { intros Hin. apply Hfresh. by eapply subseteq_dom. }
    assert (l ∉ d.*2) as Hld.
    { intros ([c' l'] & -> & Hin)%list_elem_of_fmap.
      destruct (Hcont _ _ Hin) as (_ & Hlook & _).
      apply Hfresh. by eapply elem_of_dom_2. }
    assert (members pairs c = []) as Hnil.
    { apply members_nil. intros Hc. by apply Hget, Hcov. }
    exists (d ++ [(c, l)]),
      {| heap := <[l := PyList [label]]> (heap s);
         fit_calls := fit_calls s |}.
    split; [|split; [|done]].
    { unfold bind, ret, alloc, list_append, list_items, bind, load, store.
      cbn. fold l. rewrite lookup_insert_eq. cbn.
      by rewrite insert_insert_eq. }
    cbn. split; [|split; [|split; [|split]]].
    + apply insert_subseteq_r; [by apply not_elem_of_dom|done].
    + rewrite fmap_app. apply NoDup_app. split; [done|].
      split; [|apply NoDup_singleton].
      intros c' Hc' ->%list_elem_of_singleton. done.
    + rewrite fmap_app. apply NoDup_app. split; [done|].
      split; [|apply NoDup_singleton].
      intros l' Hl' ->%list_elem_of_singleton. done.
    + intros c' l'. rewrite elem_of_app, list_elem_of_singleton.
      rewrite members_app, fmap_app, elem_of_app.
      intros [Hin'|[= -> ->]].
      * destruct (Hcont _ _ Hin') as (? & Hlook' & ?).
        split; [done|]. split; [|by left].
        assert (l' ≠ l) as Hne.
        { intros ->. apply Hld.
          by apply (list_elem_of_fmap_2 snd _ (c', l)). }
        rewrite lookup_insert_ne, Hlook' by done.
        rewrite decide_False, app_nil_r; [done|]. intros <-.
        apply Hget. by apply (list_elem_of_fmap_2 fst _ (c, l')).
      * split; [done|]. rewrite lookup_insert_eq, Hnil, decide_True by done.
        split; [done|]. right. by apply list_elem_of_singleton.
    + intros c'. rewrite !fmap_app, !elem_of_app. intros [?|Hc']; [auto|].
      by right.
Qed.

(** The whole loop of lines 83-84, over a list of labels the loop does
    not own. *)
Lemma group_labels_run h0 ml items :
  h0 !! ml = Some (PyList items) →
  ∀ cs i d s pairs,
    dict_inv h0 pairs d (heap s) →
    ∃ d' s',
      group_labels ml i cs d s = (Ok d', s')
      ∧ dict_inv h0 (pairs ++ zip (drop i items) cs) d' (heap s')
      ∧ fit_calls s' = fit_calls s.
Proof.
  intros Hml. induction cs as [|c cs IH]; intros i d s pairs Hinv;
    (assert (heap s !! ml = Some (PyList items)) as Hlook
       by (destruct Hinv as [Hext _]; by eapply lookup_weaken));
    cbn [group_labels];
    rewrite (bind_Ok _ _ _ _ _ (list_items_Ok _ _ _ Hlook)).
  { exists d, s. rewrite zip_with_nil_r, app_nil_r.
    by destruct (items !! i). }
  destruct (items !! i) as [label|] eqn:Hi.
  - destruct (group_step h0 pairs d s c label
                (group_labels ml (S i) cs) Hinv)
      as (d1 & s1 & -> & Hinv1 & Hcalls1).
    destruct (IH (S i) d1 s1 _ Hinv1) as (d2 & s2 & -> & Hinv2 & Hcalls2).
    exists d2, s2. split; [done|]. split; [|congruence].
    erewrite drop_S by done. cbn. by rewrite <- app_assoc in Hinv2.
  - exists d, s. rewrite drop_ge by (by apply lookup_ge_None).
    cbn. rewrite app_nil_r. done.
Qed.

End grouping.

(** Past the two checks of lines 62-65, for parameters they let through. *)
Ltac pass_validation Hk Hn :=
  unfold cluster_mutations; rewrite Hk, Hn;
  do 4 (erewrite bind_Ok; [|done]; cbn beta iota).

Section run.

Variable fit_predict : KModes → np.ndarray Z → result fitted.
Variable format : py.scalar → string.

Lemma gm_fields_Ok g m c l s :
  heap s !! g = Some (PyGenotypeMatrix m c l) →
  gm_fields g s = (Ok (m, c, l), s).
Proof.
  intros Hg. unfold gm_fields.
  by rewrite (bind_Ok _ _ _ _ _ (load_Ok _ _ _ Hg)).
Qed.

Lemma gm_matrix_Ok g m c l a s :
  heap s !! g = Some (PyGenotypeMatrix m c l) →
  heap s !! m = Some (PyArray a) →
  gm_matrix g s = (Ok a, s).
Proof.
  intros Hg Hm. unfold gm_matrix.
  rewrite (bind_Ok _ _ _ _ _ (gm_fields_Ok _ _ _ _ _ Hg)). cbn [fst].
  by rewrite (bind_Ok _ _ _ _ _ (load_Ok _ _ _ Hm)).
Qed.

Lemma gm_mutation_labels_Ok g m c l s :
  heap s !! g = Some (PyGenotypeMatrix m c l) →
  gm_mutation_labels g s = (Ok l, s).
Proof.
  intros Hg. unfold gm_mutation_labels.
  by rewrite (bind_Ok _ _ _ _ _ (gm_fields_Ok _ _ _ _ _ Hg)).
Qed.

Lemma gm_cell_labels_Ok g m c l s :
  heap s !! g = Some (PyGenotypeMatrix m c l) →
  gm_cell_labels g s = (Ok c, s).
Proof.
  intros Hg. unfold gm_cell_labels.
  by rewrite (bind_Ok _ _ _ _ _ (gm_fields_Ok _ _ _ _ _ Hg)).
Qed.

Lemma dict_getitem_Ok d c l s :
  NoDup (d.*1) → (c, l) ∈ d → dict_getitem d c s = (Ok (d, l), s).
Proof.
  intros Hd Hin. unfold dict_getitem. by rewrite (dict_get_elem _ _ _ Hd Hin).
Qed.

(** The comprehension of line 90 reads the lists and leaves the store. *)
Lemma for_each_strings h0 pairs d s ks :
  dict_inv h0 pairs d (heap s) → (∀ c, c ∈ ks → c ∈ d.*1) →
  for_each (λ cluster_id,
      let* dl := dict_getitem d cluster_id in
      let* items := list_items dl.2 in
      ret (py.join "," items)) ks s
  = (Ok ((λ c, py.join "," (members pairs c)) <$> ks), s).
Proof.
  intros (_ & Hk & _ & Hcont & _). induction ks as [|c ks IH]; intros Hks.
  { done. }
  cbn [for_each].
  destruct (proj1 (list_elem_of_fmap _ _ _) (Hks c ltac:(left)))
    as ([c' l] & Hc & Hin). cbn in Hc. subst c'.
  destruct (Hcont _ _ Hin) as (_ & Hlook & _).
  rewrite (bind_Ok _ _ s (py.join "," (members pairs c)) s).
  - rewrite (bind_Ok _ _ _ _ _ (IH (λ c' Hc', Hks c' (list_elem_of_further _ _ _ Hc')))).
    done.
  - rewrite (bind_Ok _ _ _ _ _ (dict_getitem_Ok _ _ _ s Hk Hin)).
    by rewrite (bind_Ok _ _ _ _ _ (list_items_Ok _ _ _ Hlook)).
Qed.

Lemma for_each_lift {A B} (f : A → result B) l rs s :
  Forall2 (λ x r, f x = Ok r) l rs →
  for_each (λ x, lift (f x)) l s = (Ok rs, s).
Proof.
  induction 1 as [|x r l rs Hx _ IH]; [done|]. cbn [for_each].
  erewrite bind_Ok; [|unfold lift; by rewrite Hx].
  by erewrite bind_Ok.
Qed.

Lemma cluster_ids_sorted pairs : StronglySorted Z.le (cluster_ids pairs).
Proof. apply StronglySorted_merge_sort; apply _. Qed.

Lemma elem_of_cluster_ids pairs c : c ∈ cluster_ids pairs ↔ c ∈ pairs.*2.
Proof.
  unfold cluster_ids, sorted.
  by rewrite merge_sort_Permutation, elem_of_remove_dups.
Qed.

Lemma NoDup_cluster_ids pairs : NoDup (cluster_ids pairs).
Proof.
  unfold cluster_ids, sorted. rewrite merge_sort_Permutation.
  apply NoDup_remove_dups.
Qed.

(** The keys of the dictionary, sorted, are the surviving cluster ids. *)
Lemma sorted_keys h0 pairs d h :
  dict_inv h0 pairs d h → sorted (keys d) = cluster_ids pairs.
Proof.
  intros (_ & Hk & _ & Hcont & Hcov).
  apply (StronglySorted_unique Z.le);
    [apply StronglySorted_merge_sort; apply _|apply cluster_ids_sorted|].
  unfold cluster_ids, sorted. rewrite !merge_sort_Permutation.
  apply NoDup_Permutation; [done|apply NoDup_remove_dups|].
  intros c. rewrite elem_of_remove_dups. split; [|apply Hcov].
  intros ([c' l] & -> & Hin)%list_elem_of_fmap. by apply (Hcont _ _ Hin).
Qed.

(** A run on a well-formed input with valid parameters, a clusterer that
    answers, and centroids that can be selected and stacked. *)
Lemma cluster_mutations_run s g lm lc ll data labels k n verbose f
    cents arr :
  heap s !! g = Some (PyGenotypeMatrix lm lc ll) →
  heap s !! lm = Some (PyArray data) →
  heap s !! ll = Some (PyList labels) →
  rejected k = Ok false → rejected n = Ok false →
  fit_predict (km_of k n verbose) (np.transpose data) = Ok f →
  let pairs := zip labels (labels_ f) in
  Forall2 (λ c r, np.getrow (cluster_centroids_ f) c = Ok r)
    (cluster_ids pairs) cents →
  np.array cents = Ok arr →
  ∃ r lm' ll' s',
    cluster_mutations fit_predict format g k n verbose s = (Ok r, s')
    ∧ heap s' !! r = Some (PyGenotypeMatrix lm' lc ll')
    ∧ heap s' !! lm' = Some (PyArray (np.transpose arr))
    ∧ heap s' !! ll'
      = Some (PyList ((λ c, py.join "," (members pairs c))
                        <$> cluster_ids pairs))
    ∧ fit_calls s'
      = fit_calls s ++ [(km_of k n verbose, np.transpose data)].
Proof.
  intros Hg Hm Hl Hk Hn Hfit pairs Hrows Harr.
  pass_validation Hk Hn.
  rewrite (bind_Ok _ _ _ _ _ (gm_matrix_Ok _ _ _ _ _ _ Hg Hm)).
  rewrite (bind_Ok _ _ _ _ _ (gm_mutation_labels_Ok _ _ _ _ _ Hg)).
  fold (km_of k n verbose).
  erewrite bind_Ok; cycle 1.
  { unfold km_fit_predict. by rewrite Hfit. }
  set (s0 := {| heap := heap s;
                fit_calls := fit_calls s ++ [(km_of k n verbose,
                                              np.transpose data)] |}).
  destruct (group_labels_run (heap s) ll labels Hl (labels_ f) 0 [] s0 []
              (dict_inv_nil _)) as (d & s1 & Hloop & Hinv & Hcalls1).
  rewrite app_nil_l, drop_0 in Hinv. fold pairs in Hinv.
  erewrite bind_Ok; [|exact Hloop].
  rewrite (sorted_keys _ _ _ _ Hinv).
  erewrite bind_Ok; cycle 1.
  { apply (for_each_strings _ _ _ _ _ Hinv). intros c Hc.
    apply elem_of_cluster_ids in Hc. by apply Hinv. }
  erewrite bind_Ok; [|done].
  erewrite bind_Ok; [|by apply for_each_lift].
  erewrite bind_Ok; [|unfold lift; by rewrite Harr].
  erewrite bind_Ok; [|done]. cbn [heap fit_calls].
  set (lstr := fresh (dom (heap s1))).
  set (h2 := <[lstr := _]> (heap s1)).
  set (larr := fresh (dom h2)).
  set (h3 := <[larr := _]> h2).
  assert (heap s ⊆ heap s1) as Hext1 by apply Hinv.
  assert (lstr ∉ dom (heap s1)) as Hfresh1 by apply is_fresh.
  assert (larr ∉ dom h2) as Hfresh2 by apply is_fresh.
  assert (heap s1 ⊆ h2) as Hext2.
  { apply insert_subseteq. by apply not_elem_of_dom. }
  assert (h2 ⊆ h3) as Hext3.
  { apply insert_subseteq. by apply not_elem_of_dom. }
  assert (h3 !! g = Some (PyGenotypeMatrix lm lc ll)) as Hg3.
  { eapply lookup_weaken; [|exact Hext3].
    eapply lookup_weaken; [|exact Hext2].
    by eapply lookup_weaken. }
  rewrite (bind_Ok _ _ _ _ _ (gm_cell_labels_Ok g _ _ _
             {| heap := h3; fit_calls := fit_calls s1 |} Hg3)).
  unfold GenotypeMatrix, alloc. cbn [heap fit_calls].
  fold h3. set (r := fresh (dom h3)).
  assert (r ∉ dom h3) as Hfresh3 by apply is_fresh.
  assert (h3 !! larr = Some (PyArray (np.transpose arr))) as Harr3
    by apply lookup_insert_eq.
  assert (h3 !! lstr
          = Some (PyList ((λ c, py.join "," (members pairs c))
                            <$> cluster_ids pairs))) as Hstr3.
  { eapply lookup_weaken; [|exact Hext3]. apply lookup_insert_eq. }
  exists r, larr, lstr. eexists. split; [done|]. cbn [heap fit_calls].
  split; [apply lookup_insert_eq|].
  assert (h3 ⊆ <[r := PyGenotypeMatrix larr lc lstr]> h3) as Hext4.
  { apply insert_subseteq. by apply not_elem_of_dom. }
  split; [by eapply lookup_weaken|].
  split; [by eapply lookup_weaken|]. done.
Qed.

End run.

(** ** Parameter validation (lines 62-65) *)

Section validation.

(** On a number the test raises nothing. *)
Lemma rejected_num (x : py.num) :
  rejected x = Ok (py.ne (py.int x) x || py.lt x 1).
Proof. unfold rejected. cbn. by destruct (py.ne _ _). Qed.

Lemma rejected_int z : rejected (py.Int z) = Ok (z <? 1).
Proof. rewrite rejected_num. cbn. by rewrite Z.eqb_refl. Qed.

Lemma rejected_bool b : rejected (py.Bool b) = Ok (negb b).
Proof. by destruct b. Qed.

Lemma quot_of_integer q z :
  Qeq q (inject_Z z) → Z.quot (Qnum q) (Z.pos (Qden q)) = z.
Proof.
  unfold Qeq. cbn. rewrite Z.mul_1_r. intros ->.
  by apply Z.quot_mul.
Qed.

Lemma test_false (x : py.num) :
  py.ne (py.int x) x || py.lt x 1 = false ↔ positive_integer x.
Proof.
  unfold positive_integer. destruct x as [z|b|q]; cbn.
  - rewrite Z.eqb_refl. cbn. rewrite Z.ltb_ge. split.
    + intros Hz. exists z. split; [done|reflexivity].
    + intros (z' & Hz' & Heq).
      apply (proj1 (inject_Z_injective _ _)) in Heq. lia.
  - rewrite Z.eqb_refl. cbn. split.
    + destruct b; [|done]. intros _. exists 1. split; [done|reflexivity].
    + intros (z' & Hz' & Heq).
      apply (proj1 (inject_Z_injective _ _)) in Heq.
      destruct b; [done|cbn in Heq; lia].
  - rewrite orb_false_iff, !negb_false_iff, Qeq_bool_iff, Qle_bool_iff.
    split.
    + intros [Heq Hle]. eexists. split; [|symmetry; exact Heq].
      rewrite <- Heq in Hle. by rewrite Zle_Qle.
    + intros (z & Hz & Heq). rewrite (quot_of_integer _ _ Heq).
      split; [by symmetry|]. rewrite Heq. by rewrite <- Zle_Qle.
Qed.

(** The check lets a number through exactly when its value is a positive
    integer. *)
Lemma rejected_false (x : py.num) :
  rejected x = Ok false ↔ positive_integer x.
Proof.
  rewrite rejected_num, <- test_false. split; [by intros [= ->]|].
  by intros ->.
Qed.


(** Nothing but a number passes the test. *)
Lemma rejected_false_num (o : py.scalar) :
  rejected o = Ok false → ∃ x : py.num, o = x.
Proof. destruct o as [x|[]| |]; try done. by exists x. Qed.

(** A number whose value is its own truncation and is at least 1. *)
Lemma integral_accepted (x : py.num) :
  Qeq (value x) (inject_Z (py.int x)) → Qle (inject_Z 1) (value x) →
  rejected x = Ok false.
Proof.
  intros Heq Hle. apply rejected_false. exists (py.int x).
  split; [|done]. rewrite Heq in Hle. by rewrite Zle_Qle.
Qed.

End validation.

(** ** Calls to the clusterer *)

Create HintDb calls.

Section calls.

Lemma keeps_bind {A B} (m : M A) (f : A → M B) :
  keeps_calls m → (∀ a, keeps_calls (f a)) → keeps_calls (bind m f).
Proof.
  intros Hm Hf s. unfold bind. specialize (Hm s).
  destruct (m s) as [[a|e] s']; cbn in *; [|done].
  by rewrite Hf.
Qed.

Lemma keeps_ret {A} (a : A) : keeps_calls (ret a).
Proof. done. Qed.

Lemma keeps_raise {A} e : keeps_calls (@raise A e).
Proof. done. Qed.

Lemma keeps_lift {A} (r : result A) : keeps_calls (lift r).
Proof. done. Qed.

Lemma keeps_load l : keeps_calls (load l).
Proof. intros s. unfold load. by destruct (heap s !! l). Qed.

Lemma keeps_store l o : keeps_calls (store l o).
Proof. done. Qed.

Lemma keeps_alloc o : keeps_calls (alloc o).
Proof. done. Qed.

Hint Resolve keeps_bind keeps_ret keeps_raise keeps_lift keeps_load
  keeps_store keeps_alloc : calls.

Lemma keeps_list_items l : keeps_calls (list_items l).
Proof.
  unfold list_items. apply keeps_bind; [auto with calls|].
  intros []; auto with calls.
Qed.

Hint Resolve keeps_list_items : calls.

Lemma keeps_list_append l x : keeps_calls (list_append l x).
Proof. unfold list_append. auto with calls. Qed.

Lemma keeps_dict_getitem d key : keeps_calls (dict_getitem d key).
Proof. unfold dict_getitem. destruct (dict_get d key); auto with calls. Qed.

Hint Resolve keeps_list_append keeps_dict_getitem : calls.

Lemma keeps_group_labels ml cs : ∀ i d, keeps_calls (group_labels ml i cs d).
Proof.
  induction cs as [|c cs IH]; intros i d; cbn [group_labels];
    (apply keeps_bind; [auto with calls|]); intros items;
    destruct (items !! i); auto with calls.
Qed.

Lemma keeps_for_each {A B} (f : A → M B) l :
  (∀ x, keeps_calls (f x)) → keeps_calls (for_each f l).
Proof.
  intros Hf. induction l as [|x l IH]; cbn [for_each]; auto with calls.
Qed.

Lemma keeps_gm_fields g : keeps_calls (gm_fields g).
Proof.
  unfold gm_fields. apply keeps_bind; [auto with calls|].
  intros []; auto with calls.
Qed.

Hint Resolve keeps_group_labels keeps_for_each keeps_gm_fields : calls.

Lemma keeps_gm_matrix g : keeps_calls (gm_matrix g).
Proof.
  unfold gm_matrix. apply keeps_bind; [auto with calls|]. intros f.
  apply keeps_bind; [auto with calls|]. intros []; auto with calls.
Qed.

Lemma keeps_gm_cell_labels g : keeps_calls (gm_cell_labels g).
Proof. unfold gm_cell_labels. auto with calls. Qed.

Lemma keeps_gm_mutation_labels g : keeps_calls (gm_mutation_labels g).
Proof. unfold gm_mutation_labels. auto with calls. Qed.

Hint Resolve keeps_gm_matrix keeps_gm_cell_labels keeps_gm_mutation_labels
  : calls.

(** What follows the fit (lines 81-96) makes no further call. *)
Lemma cluster_mutations_calls fit_predict format s g lm lc ll data
    k n verbose :
  heap s !! g = Some (PyGenotypeMatrix lm lc ll) →
  heap s !! lm = Some (PyArray data) →
  rejected k = Ok false → rejected n = Ok false →
  fit_calls (cluster_mutations fit_predict format g k n verbose s).2
  = fit_calls s ++ [(km_of k n verbose, np.transpose data)].
Proof.
  intros Hg Hm Hk Hn.
  pass_validation Hk Hn.
  rewrite (bind_Ok _ _ _ _ _ (gm_matrix_Ok _ _ _ _ _ _ Hg Hm)).
  rewrite (bind_Ok _ _ _ _ _ (gm_mutation_labels_Ok _ _ _ _ _ Hg)).
  fold (km_of k n verbose).
  unfold bind at 1, km_fit_predict.
  destruct (fit_predict _ _) as [f|e]; [|done].
  match goal with |- fit_calls (?m ?s0).2 = _ =>
    assert (keeps_calls m) as Hkeep end.
  { apply keeps_bind; [auto with calls|]. intros d.
    apply keeps_bind.
    { apply keeps_for_each. intros c. auto 10 with calls. }
    intros strings. unfold GenotypeMatrix. auto 20 with calls. }
  by rewrite Hkeep.
Qed.

End calls.

(** ** Joining and splitting labels *)

Section labels.

Lemma split_without c s : contains c s = false → py.split c s = [s].
Proof.
  induction s as [|a s IH]; [done|]. cbn.
  intros [Ha Hs]%orb_false_iff. rewrite Ha, IH by done. done.
Qed.

Lemma split_at c s t :
  contains c s = false →
  py.split c (s +:+ String c t) = s :: py.split c t.
Proof.
  induction s as [|a s IH]; cbn [contains].
  - intros _. change ("" +:+ String c t) with (String c t).
    cbn [py.split]. by rewrite Ascii.eqb_refl.
  - intros [Ha Hs]%orb_false_iff.
    change (String a s +:+ String c t) with (String a (s +:+ String c t)).
    cbn [py.split]. by rewrite Ha, IH.
Qed.

(** Splitting a joined group gives the group back, when no label of the
    group holds the separator. *)
Lemma split_join c ms :
  ms ≠ [] → Forall (λ m, contains c m = false) ms →
  py.split c (py.join (String c "") ms) = ms.
Proof.
  intros Hne Hms. induction Hms as [|m ms Hm Hms IH]; [done|].
  destruct ms as [|m' ms]; [by apply split_without|].
  change (py.join (String c "") (m :: m' :: ms))
    with (m +:+ String c (py.join (String c "") (m' :: ms))).
  rewrite split_at by done. f_equal. by apply IH.
Qed.

Lemma concat_fmap_app {A B} (f g : A → list B) l :
  concat ((λ x, f x ++ g x) <$> l) ≡ₚ concat (f <$> l) ++ concat (g <$> l).
Proof.
  induction l as [|x l IH]; [done|]. cbn. rewrite IH.
  rewrite <- !app_assoc. f_equiv. rewrite !app_assoc. f_equiv.
  apply Permutation_app_comm.
Qed.

Lemma concat_single {B} (x : B) (c0 : Z) ids :
  NoDup ids → c0 ∈ ids →
  concat ((λ c, if decide (c0 = c) then [x] else []) <$> ids) = [x].
Proof.
  induction 1 as [|c ids Hc Hids IH]; [by intros ?%elem_of_nil|].
  cbn. intros [->|Hin]%elem_of_cons.
  - rewrite decide_True by done. cbn. f_equal.
    clear IH. induction ids as [|c' ids IH]; [done|].
    apply not_elem_of_cons in Hc as [Hne Hc]. apply NoDup_cons in Hids.
    cbn. rewrite decide_False by done. apply IH; [done|apply Hids].
  - rewrite decide_False by (intros ->; done). by apply IH.
Qed.

Lemma members_cons label c0 pairs c :
  members ((label, c0) :: pairs) c
  = (if decide (c0 = c) then [label] else []) ++ members pairs c.
Proof. unfold members. rewrite filter_cons. cbn. by case_decide. Qed.

(** The groups of the surviving clusters hold every label once. *)
Lemma members_partition pairs ids :
  NoDup ids → (∀ c, c ∈ pairs.*2 → c ∈ ids) →
  concat (members pairs <$> ids) ≡ₚ pairs.*1.
Proof.
  intros Hids. induction pairs as [|[label c0] pairs IH]; intros Hcov.
  - cbn. clear. induction ids; [done|]. done.
  - erewrite list_fmap_ext; [|intros ? c _; apply members_cons].
    rewrite (concat_fmap_app
               (λ c, if decide (c0 = c) then [label] else [])).
    rewrite concat_single; [|done|apply Hcov; by left].
    cbn. f_equiv. apply IH. intros c Hc. apply Hcov. by right.
Qed.

Lemma fst_zip_labels (labels : list string) (cs : list Z) :
  (length labels ≤ length cs)%nat → (zip labels cs).*1 = labels.
Proof. intros. by apply fst_zip. Qed.

Lemma snd_zip_elem (labels : list string) (cs : list Z) c :
  c ∈ (zip labels cs).*2 → c ∈ cs.
Proof.
  intros ([l c'] & -> & Hin)%list_elem_of_fmap.
  by apply elem_of_zip_r in Hin.
Qed.

End labels.

(** ** Selecting and stacking centroids *)

Section centroids.

Lemma getrow_Ok {A} (rows : list (list A)) c :
  0 ≤ c < Z.of_nat (length rows) →
  ∃ r, np.getrow rows c = Ok r ∧ rows !! Z.to_nat c = Some r.
Proof.
  intros Hc. unfold np.getrow.
  destruct (Z.ltb_spec c 0) as [?|_]; [lia|].
  destruct (Z.leb_spec 0 c) as [_|?]; [|lia].
  destruct (Z.ltb_spec c (Z.of_nat (length rows))) as [_|?]; [|lia].
  cbn. destruct (lookup_lt_is_Some_2 rows (Z.to_nat c)) as [r Hr]; [lia|].
  rewrite Hr. eauto.
Qed.

Lemma select_rows {A} (rows : list (list A)) ids :
  Forall (λ c, 0 ≤ c < Z.of_nat (length rows)) ids →
  ∃ cents, Forall2 (λ c r, np.getrow rows c = Ok r) ids cents
           ∧ Forall (λ r, r ∈ rows) cents.
Proof.
  induction 1 as [|c ids Hc _ (cents & Hsel & Hin)].
  { exists []. split; constructor. }
  destruct (getrow_Ok rows c Hc) as (r & Hr & Hlook).
  exists (r :: cents). split; constructor; try done.
  by eapply list_elem_of_lookup_2.
Qed.

Lemma array_Ok {A} L (cents : list (list A)) :
  Forall (λ r, length r = L) cents →
  np.array cents = Ok (match cents with
                       | [] => np.Arr1 []
                       | _ => np.Arr2 L cents
                       end).
Proof.
  intros Hlen. destruct cents as [|r cents]; [done|].
  unfold np.array. assert (length r = L) as Hr by by inv Hlen.
  rewrite Hr.
  assert (forallb (λ r', (length r' =? L)%nat) (r :: cents) = true) as ->;
    [|done].
  apply forallb_forall. intros r' Hin%list_elem_of_In. apply Nat.eqb_eq.
  by apply (proj1 (Forall_forall _ _) Hlen).
Qed.

(** At most [k] distinct ids lie in 0..k-1. *)
Lemma length_ids_bound ids k :
  0 ≤ k → NoDup ids → Forall (λ c, 0 ≤ c < k) ids →
  Z.of_nat (length ids) ≤ k.
Proof.
  intros Hk Hnd Hids.
  assert (ids ⊆+ seqZ 0 k) as Hsub.
  { apply NoDup_submseteq; [done|]. intros c Hc. apply elem_of_seqZ.
    apply (proj1 (Forall_forall _ _) Hids) in Hc. lia. }
  apply submseteq_length in Hsub. rewrite length_seqZ in Hsub. lia.
Qed.

(** Transposing stacked rows puts row [j] in column [j]. *)
Lemma column_transposed L (cents : list (list Z)) j r :
  Forall (λ r, length r = L) cents → cents !! j = Some r →
  np.column 0 (np.column 0 cents <$> seq 0 L) j = r.
Proof.
  intros Hlen Hj. assert (length r = L) as Hr.
  { by apply (proj1 (Forall_lookup _ _) Hlen j r). }
  unfold np.column at 1. rewrite <- list_fmap_compose.
  apply list_eq. intros i. rewrite list_lookup_fmap.
  destruct (decide (i < L)%nat) as [Hi|Hi].
  - rewrite lookup_seq_lt by done. cbn.
    unfold np.column. rewrite nth_lookup, list_lookup_fmap, Hj. cbn.
    destruct (lookup_lt_is_Some_2 r i) as [x Hx]; [lia|].
    by rewrite (nth_lookup_Some _ _ _ _ Hx), Hx.
  - rewrite lookup_seq_ge by lia. cbn. symmetry.
    apply lookup_ge_None. lia.
Qed.



End centroids.

(** ** The reduced matrix *)

Section reduced.

Variable fit_predict : KModes → np.ndarray Z → result fitted.
Variable format : py.scalar → string.

(** A run on a genotype matrix that satisfies its invariant, with valid
    parameters and a clusterer that answers within its contract: the call
    returns, and the new instance holds the joined labels of the surviving
    clusters and their stacked centroids, transposed. *)
Lemma cluster_mutations_reduced s g lm lc ll ncols rows cells labels
    (k n : py.num) verbose f :
  genotype_matrix_at s g lm lc ll ncols rows cells labels →
  rejected k = Ok false → rejected n = Ok false →
  fit_predict (km_of k n verbose) (np.transpose (np.Arr2 ncols rows))
  = Ok f →
  clusterer_contract (km_of k n verbose)
    (np.transpose (np.Arr2 ncols rows)) f →
  let pairs := zip labels (labels_ f) in
  ∃ r lm' ll' s' cents,
    cluster_mutations fit_predict format g k n verbose s = (Ok r, s')
    ∧ heap s' !! r = Some (PyGenotypeMatrix lm' lc ll')
    ∧ heap s' !! lm'
      = Some (PyArray (np.transpose
                (match cents with
                 | [] => np.Arr1 []
                 | _ => np.Arr2 (length rows) cents
                 end)))
    ∧ heap s' !! ll'
      = Some (PyList ((λ c, py.join "," (members pairs c))
                        <$> cluster_ids pairs))
    ∧ Forall2 (λ c r, np.getrow (cluster_centroids_ f) c = Ok r)
        (cluster_ids pairs) cents
    ∧ Forall (λ r, length r = length rows) cents
    ∧ pairs.*1 = labels
    ∧ Forall (λ c, 0 ≤ c < py.int k) (cluster_ids pairs).
Proof.
  intros (Hg & Hm & Hc & Hl & Hrows & Hlabels & Hcells) Hk Hn Hfit
    (Hlen & Hrange & Hcents & Hwidth) pairs.
  cbn [np.transpose] in *. cbn [n_clusters km_of] in *.
  rewrite length_fmap, length_seq in Hlen.
  assert (Forall (λ c, 0 ≤ c < py.int k) (cluster_ids pairs)) as Hids.
  { apply Forall_forall. intros c Hc'%elem_of_cluster_ids%snd_zip_elem.
    by apply (proj1 (Forall_forall _ _) Hrange). }
  destruct (select_rows (cluster_centroids_ f) (cluster_ids pairs))
    as (cents & Hsel & Hin).
  { by rewrite Hcents. }
  assert (Forall (λ r, length r = length rows) cents) as Hcw.
  { eapply Forall_impl; [exact Hin|]. intros r Hr.
    by apply (proj1 (Forall_forall _ _) Hwidth). }
  destruct (cluster_mutations_run fit_predict format s g lm lc ll _ labels
              k n verbose f cents _ Hg Hm Hl Hk Hn Hfit Hsel
              (array_Ok _ _ Hcw))
    as (r & lm' & ll' & s' & Hrun & Hr & Hlm & Hll & _).
  exists r, lm', ll', s', cents. repeat split; try done.
  apply fst_zip_labels. lia.
Qed.

End reduced.

(** * The claims *)

Section claims_dissimilarity.

Import np.

(** C1, as amended.  For every non-empty vector [a] and every non-empty
    grid of candidate rows as long as [a], the batched dissimilarity
    returns, for each row [b], exactly the number of positions [i] with
    [a[i] != 2], [b[i] != 2] and [a[i] != b[i]], whichever operand comes
    first; a position where either value is 2 is never counted. *)
Theorem conflict_dissim_batched a rows :
  a ≠ [] → rows ≠ [] → Forall (λ b, length b = length a) rows →
  _conflict_dissim (Arr1 a) (Arr2 (length a) rows)
  = Ok (Arr1 (conflict_count a <$> rows))
  ∧ _conflict_dissim (Arr2 (length a) rows) (Arr1 a)
    = Ok (Arr1 (conflict_count a <$> rows))
  ∧ ∀ b i, nth i a 0 = 2 ∨ nth i b 0 = 2 → i ∉ conflict_positions a b.
Proof.
  intros Ha Hrows Hlen. split; [|split].
  - by apply conflict_dissim_rows.
  - rewrite conflict_dissim_comm. by apply conflict_dissim_rows.
  - intros b i Hmiss [Hc _]%list_elem_of_filter.
    destruct Hc as (? & ? & _). by destruct Hmiss.
Qed.

(** C1 at the vector and the row of the specification: the distance is 2. *)
Lemma conflict_dissim_batched_witness :
  _conflict_dissim (Arr1 [0; 1; 2; 0]) (Arr2 4 [[0; 0; 2; 1]])
  = Ok (Arr1 [2]).
Proof.
  exact (proj1 (conflict_dissim_batched [0; 1; 2; 0] [[0; 0; 2; 1]]
           ltac:(discriminate) ltac:(discriminate)
           ltac:(repeat constructor))).
Defined.

(** C1 as stated fails on empty vectors: numpy's [vectorize] refuses
    operands of size 0, so no count is returned for the row. *)
Lemma conflict_dissim_batched_empty :
  ¬ (_conflict_dissim (Arr1 []) (Arr2 0 [[]])
     = Ok (Arr1 (conflict_count [] <$> [[]]))).
Proof. discriminate. Qed.

(** C6, as amended.  Given two single vectors the function never returns
    a value: for non-empty vectors of equal length it raises numpy's axis
    error, the elementwise result having no axis 1.  The conflict count of
    the pair, a non-negative integer, is what the batched form returns for
    the grid made of the one row [b]. *)
Theorem conflict_dissim_single_pair a b :
  (∃ e, _conflict_dissim (Arr1 a) (Arr1 b) = Raise e)
  ∧ (a ≠ [] → length a = length b →
     _conflict_dissim (Arr1 a) (Arr1 b) = Raise (AxisError 1 1)
     ∧ _conflict_dissim (Arr1 a) (Arr2 (length a) [b])
       = Ok (Arr1 [conflict_count a b])
     ∧ 0 ≤ conflict_count a b).
Proof.
  split; [apply conflict_dissim_vectors_raise|]. intros Ha Hlen.
  split; [by apply conflict_dissim_vectors_axis|].
  split; [|apply conflict_count_nonneg].
  apply (conflict_dissim_rows a [b]); [done..|].
  by apply Forall_singleton.
Qed.

Lemma conflict_dissim_single_pair_witness :
  _conflict_dissim (Arr1 [0; 1; 2; 0]) (Arr1 [0; 0; 2; 1])
  = Raise (AxisError 1 1)
  ∧ _conflict_dissim (Arr1 [0; 1; 2; 0]) (Arr2 4 [[0; 0; 2; 1]])
    = Ok (Arr1 [2])
  ∧ 0 ≤ 2.
Proof.
  exact (proj2 (conflict_dissim_single_pair [0; 1; 2; 0] [0; 0; 2; 1])
           ltac:(discriminate) eq_refl).
Defined.

(** C6 as stated fails: on the two vectors of the specification the
    single-pair call returns nothing. *)
Lemma conflict_dissim_single_pair_raises :
  ¬ ∃ r, _conflict_dissim (Arr1 [0; 1; 2; 0]) (Arr1 [0; 0; 2; 1]) = Ok r.
Proof. intros [r Hr]. discriminate Hr. Qed.

(** C7, as amended.  For vectors [a] and [b] of equal length the
    dissimilarity of [a] against [b] and that of [b] against [a] are the
    same, value or error; and, when the vectors are not empty, it is a
    number that is zero exactly when no position holds two non-missing
    values that disagree. *)
Theorem conflict_dissim_symmetric a b :
  length a = length b →
  _conflict_dissim (Arr1 a) (Arr2 (length a) [b])
  = _conflict_dissim (Arr1 b) (Arr2 (length b) [a])
  ∧ (a ≠ [] →
     ∃ d, _conflict_dissim (Arr1 a) (Arr2 (length a) [b]) = Ok (Arr1 [d])
          ∧ (d = 0 ↔ ∀ i, ¬ is_conflict a b i)).
Proof.
  intros Hlen.
  assert (a ≠ [] →
          _conflict_dissim (Arr1 a) (Arr2 (length a) [b])
          = Ok (Arr1 [conflict_count a b])) as Hab.
  { intros Ha. apply (conflict_dissim_rows a [b]); [done..|].
    by apply Forall_singleton. }
  split.
  - destruct a as [|x a]; [by destruct b|].
    rewrite Hab by done. rewrite (conflict_count_sym _ b) by done.
    symmetry. apply (conflict_dissim_rows b [_]);
      [by destruct b|done|by apply Forall_singleton].
  - intros Ha. exists (conflict_count a b).
    split; [by apply Hab|by apply conflict_count_0].
Qed.

Lemma conflict_dissim_symmetric_witness :
  _conflict_dissim (Arr1 [0; 1; 2; 0]) (Arr2 4 [[0; 0; 2; 1]])
  = _conflict_dissim (Arr1 [0; 0; 2; 1]) (Arr2 4 [[0; 1; 2; 0]])
  ∧ ∃ d, _conflict_dissim (Arr1 [0; 1; 2; 0]) (Arr2 4 [[0; 0; 2; 1]])
         = Ok (Arr1 [d])
         ∧ (d = 0 ↔ ∀ i, ¬ is_conflict [0; 1; 2; 0] [0; 0; 2; 1] i).
Proof.
  split.
  - exact (proj1 (conflict_dissim_symmetric [0; 1; 2; 0] [0; 0; 2; 1]
                    eq_refl)).
  - exact (proj2 (conflict_dissim_symmetric [0; 1; 2; 0] [0; 0; 2; 1]
                    eq_refl) ltac:(discriminate)).
Defined.

(** C7 as stated fails on empty vectors: no position disagrees, yet the
    call raises instead of returning zero. *)
Lemma conflict_dissim_symmetric_empty :
  (∀ i, ¬ is_conflict [] [] i)
  ∧ ¬ (_conflict_dissim (Arr1 []) (Arr2 0 [[]]) = Ok (Arr1 [0])).
Proof.
  split; [|discriminate]. intros i (_ & _ & Hne). by destruct i.
Qed.

(** C8, as amended.  For non-empty vectors [a] and [b] of equal length
    such that every position of [a] is 2, or every position of [b] is 2,
    the dissimilarity is 0. *)
Theorem conflict_dissim_missing a b :
  a ≠ [] → length a = length b →
  Forall (λ x, x = 2) a ∨ Forall (λ x, x = 2) b →
  _conflict_dissim (Arr1 a) (Arr2 (length a) [b]) = Ok (Arr1 [0]).
Proof.
  intros Ha Hlen Hmiss.
  rewrite (conflict_dissim_rows a [b]); [|done..|by apply Forall_singleton].
  cbn. by rewrite conflict_count_missing.
Qed.

Lemma conflict_dissim_missing_witness :
  _conflict_dissim (Arr1 [2; 2; 2]) (Arr2 3 [[0; 1; 2]]) = Ok (Arr1 [0]).
Proof.
  exact (conflict_dissim_missing [2; 2; 2] [0; 1; 2]
           ltac:(discriminate) eq_refl
           ltac:(left; repeat constructor)).
Defined.

(** C8 as stated fails on empty vectors: every position of the empty
    vector is 2, yet the call raises instead of returning 0. *)
Lemma conflict_dissim_missing_empty :
  Forall (λ x, x = 2) ([] : list Z)
  ∧ ¬ (_conflict_dissim (Arr1 []) (Arr2 0 [[]]) = Ok (Arr1 [0])).
Proof. split; [constructor|discriminate]. Qed.

End claims_dissimilarity.

Section claims_clustering.

Variable fit_predict : KModes → np.ndarray Z → result fitted.
Variable format : py.scalar → string.


(** What is no number at all does not get as far as that message: the
    exception is the one [int] raises on it, from the first of the two
    parameters that has no integer, and nothing has been done by then. *)
Lemma unconvertible_parameter_raises g (k n : py.scalar) verbose s e :
  py.int_scalar k = Raise e
  ∨ rejected k = Ok false ∧ py.int_scalar n = Raise e →
  cluster_mutations fit_predict format g k n verbose s = (Raise e, s).
Proof.
  unfold cluster_mutations. intros [Hk|[Hk Hn]].
  - unfold rejected. by rewrite Hk.
  - rewrite Hk. unfold rejected at 1. by rewrite Hn.
Qed.

(** C10.  A number whose value equals its integer truncation and is at
    least 1 passes the check whatever its type, and the clusterer is then
    configured with the numbers as they were given. *)
Theorem integral_parameters_forwarded s g lm lc ll data (k n : py.num)
    verbose :
  Qeq (value k) (inject_Z (py.int k)) → Qle (inject_Z 1) (value k) →
  Qeq (value n) (inject_Z (py.int n)) → Qle (inject_Z 1) (value n) →
  heap s !! g = Some (PyGenotypeMatrix lm lc ll) →
  heap s !! lm = Some (PyArray data) →
  rejected k = Ok false ∧ rejected n = Ok false
  ∧ ∃ km,
      fit_calls (cluster_mutations fit_predict format g k n verbose s).2
      = fit_calls s ++ [(km, np.transpose data)]
      ∧ n_clusters km = k ∧ n_init km = n.
Proof.
  intros Hk1 Hk2 Hn1 Hn2 Hg Hm.
  assert (rejected k = Ok false) as Hk by by apply integral_accepted.
  assert (rejected n = Ok false) as Hn by by apply integral_accepted.
  split; [done|]. split; [done|]. exists (km_of k n verbose).
  split; [|done]. by eapply cluster_mutations_calls.
Qed.

(** C9.  However the call ends, every object of the store it started from
    is left as it was, the input's data, cell labels and mutation labels
    among them; a returned reference is a new genotype matrix instance,
    built on a new array and a new list of mutation labels. *)
Theorem input_not_mutated g k n verbose s :
  let out := cluster_mutations fit_predict format g k n verbose s in
  (∀ l o, heap s !! l = Some o → heap out.2 !! l = Some o)
  ∧ ∀ r, out.1 = Ok r →
      (r ∉ dom (heap s))
      ∧ ∃ m c l, heap out.2 !! r = Some (PyGenotypeMatrix m c l)
                 ∧ (m ∉ dom (heap s)) ∧ (l ∉ dom (heap s)).
Proof.
  intros out.
  destruct (frames_cluster_mutations (heap s) fit_predict format
              g k n verbose s) as [Hext Hret]; [done..|].
  split.
  - intros l o Hl. by eapply lookup_weaken.
  - intros r Hr.
    destruct (Hret r Hr) as (Hfresh & m & c & l & _ & _ & _ & H & ? & ? & _).
    split; [done|]. by exists m, c, l.
Qed.

Lemma accepted_int (x : py.num) : rejected x = Ok false → 1 ≤ py.int x.
Proof.
  rewrite rejected_num. intros [= H]. revert H. destruct x as [z|b|q]; cbn.
  - rewrite Z.eqb_refl. cbn. lia.
  - rewrite Z.eqb_refl. by destruct b.
  - rewrite orb_false_iff, !negb_false_iff, Qeq_bool_iff, Qle_bool_iff.
    intros [Heq Hle]. rewrite <- Heq in Hle. by rewrite Zle_Qle.
Qed.

Lemma members_elem pairs c x : x ∈ members pairs c → x ∈ pairs.*1.
Proof.
  unfold members. intros ([x' c'] & -> & [_ Hin]%list_elem_of_filter)
    %list_elem_of_fmap.
  by apply (list_elem_of_fmap_2 fst _ (x', c')).
Qed.

(** C3, as amended.  On a genotype matrix none of whose mutation labels
    holds a comma, with valid parameters and a clusterer that answers
    within its contract, the call returns, and splitting every output
    label at its commas gives back the input labels: each of them once,
    none missing. *)
Theorem label_partition s g lm lc ll ncols rows cells labels k n verbose f :
  genotype_matrix_at s g lm lc ll ncols rows cells labels →
  positive_integer k → positive_integer n →
  fit_predict (km_of k n verbose) (np.transpose (np.Arr2 ncols rows))
  = Ok f →
  clusterer_contract (km_of k n verbose)
    (np.transpose (np.Arr2 ncols rows)) f →
  Forall (λ m, contains "," m = false) labels →
  ∃ r lm' ll' s' out,
    cluster_mutations fit_predict format g k n verbose s = (Ok r, s')
    ∧ heap s' !! r = Some (PyGenotypeMatrix lm' lc ll')
    ∧ heap s' !! ll' = Some (PyList out)
    ∧ concat (py.split "," <$> out) ≡ₚ labels.
Proof.
  intros Hgm Hk%rejected_false Hn%rejected_false Hfit Hcontract Hcomma.
  destruct (cluster_mutations_reduced fit_predict format _ _ _ _ _ _ _ _ _
              _ _ _ _ Hgm Hk Hn Hfit Hcontract)
    as (r & lm' & ll' & s' & cents & Hrun & Hr & _ & Hll & _ & _ & Hfst & _).
  set (pairs := zip labels (labels_ f)) in *.
  eexists r, lm', ll', s', _. split; [done|]. split; [done|].
  split; [done|].
  rewrite <- list_fmap_compose.
  erewrite (list_fmap_ext _ (members pairs)).
  - etrans; [apply members_partition|by rewrite Hfst].
    + apply NoDup_cluster_ids.
    + intros c. apply elem_of_cluster_ids.
  - intros i c Hc%list_elem_of_lookup_2%elem_of_cluster_ids. cbn.
    apply (split_join ","%char); [by apply members_not_nil|].
    apply Forall_forall. intros x Hx%members_elem. rewrite Hfst in Hx.
    by apply (proj1 (Forall_forall _ _) Hcomma).
Qed.

(** C4.  On a genotype matrix with at least one mutation column, with
    valid parameters and a clusterer that answers within its contract,
    the call returns a matrix with as many rows as the input and the
    input's cell labels, untouched; its number of columns, which is its
    number of mutation labels, is the number of non-empty clusters, at
    least 1 and at most [k]. *)
Theorem reduced_shape s g lm lc ll ncols rows cells labels k n verbose f :
  genotype_matrix_at s g lm lc ll ncols rows cells labels →
  (0 < ncols)%nat →
  positive_integer k → positive_integer n →
  fit_predict (km_of k n verbose) (np.transpose (np.Arr2 ncols rows))
  = Ok f →
  clusterer_contract (km_of k n verbose)
    (np.transpose (np.Arr2 ncols rows)) f →
  ∃ r lm' ll' s' out_rows out_labels,
    cluster_mutations fit_predict format g k n verbose s = (Ok r, s')
    ∧ heap s' !! r = Some (PyGenotypeMatrix lm' lc ll')
    ∧ heap s' !! lc = Some (PyList cells)
    ∧ heap s' !! lm'
      = Some (PyArray (np.Arr2 (length out_labels) out_rows))
    ∧ heap s' !! ll' = Some (PyList out_labels)
    ∧ length out_rows = length rows
    ∧ Forall (λ row, length row = length out_labels) out_rows
    ∧ length out_labels = length (cluster_ids (zip labels (labels_ f)))
    ∧ 1 ≤ Z.of_nat (length out_labels) ≤ py.int k.
Proof.
  intros Hgm Hcols Hk%rejected_false Hn%rejected_false Hfit Hcontract.
  destruct (cluster_mutations_reduced fit_predict format _ _ _ _ _ _ _ _ _
              _ _ _ _ Hgm Hk Hn Hfit Hcontract)
    as (r & lm' & ll' & s' & cents & Hrun & Hr & Hlm & Hll & Hsel & Hcw
        & Hfst & Hids).
  set (pairs := zip labels (labels_ f)) in *.
  assert (length cents = length (cluster_ids pairs)) as Hlen.
  { symmetry. by eapply Forall2_length. }
  assert (cluster_ids pairs ≠ []) as Hne.
  { destruct Hgm as (_ & _ & _ & _ & _ & Hlabels & _).
    destruct labels as [|label labels]; [cbn in *; lia|].
    destruct pairs as [|[x c] pairs'] eqn:Hpairs; [done|].
    intros Hnil.
    assert (c ∈ cluster_ids pairs) as Hc.
    { apply elem_of_cluster_ids. rewrite Hpairs. left. }
    rewrite Hpairs, Hnil in Hc. by apply elem_of_nil in Hc. }
  destruct Hgm as (_ & _ & Hlc & _).
  assert (heap s ⊆ heap s') as Hkeep.
  { destruct (frames_cluster_mutations (heap s) fit_predict format
                g k n verbose s) as [Hext _]; [done..|].
    by rewrite Hrun in Hext. }
  destruct cents as [|cent cents]; [by destruct (cluster_ids pairs)|].
  cbn [np.transpose] in Hlm.
  exists r, lm', ll', s',
    (np.column 0 (cent :: cents) <$> seq 0 (length rows)),
    ((λ c, py.join "," (members pairs c)) <$> cluster_ids pairs).
  split; [done|]. split; [done|].
  split; [by eapply lookup_weaken|].
  split; [rewrite length_fmap, <- Hlen; exact Hlm|].
  split; [done|]. rewrite !length_fmap, length_seq.
  split; [done|]. split; [|split; [done|]].
  - apply Forall_fmap, Forall_forall. intros j _. cbn.
    unfold np.column. by rewrite length_fmap.
  - split.
    + destruct (cluster_ids pairs); [done|cbn; lia].
    + apply length_ids_bound; [|apply NoDup_cluster_ids|done].
      apply accepted_int in Hk. lia.
Qed.


End claims_clustering.

(** ** The claims on the two instances *)

Section instances.

Lemma example_matrix :
  genotype_matrix_at example_state 1%positive 2%positive 3%positive
    4%positive 3 [[0; 1; 2]; [1; 1; 0]]
    ["c1"; "c2"] ["m1"; "m2"; "m3"].
Proof. repeat split; repeat constructor. Defined.

Lemma example_contract :
  clusterer_contract (km_of (py.Int 2) (py.Int 10) false)
    (np.transpose (np.Arr2 3 [[0; 1; 2]; [1; 1; 0]]))
    {| labels_ := [1; 0; 1]; cluster_centroids_ := [[0; 1]; [1; 1]] |}.
Proof. repeat split; repeat constructor; cbn; lia. Defined.

Lemma positive_integer_int z : 1 ≤ z → positive_integer (py.Int z).
Proof. intros Hz. exists z. split; [done|reflexivity]. Defined.


(** C2 at [k = 0], and at a fractional number of iterations. *)
Example invalid_k_zero :
  example_run (py.Int 0) (py.Int 10)
  = (Raise (ValueError
       "the number of clusters must be a positive integer, but 0 is not."),
     example_state).
Proof. reflexivity. Qed.

Example invalid_iterations :
  example_run (py.Int 2) (py.Float (5 # 2))
  = (Raise (ValueError
       "the number of iterations must be a positive integer, but 2.5 is not."),
     example_state).
Proof. reflexivity. Qed.


(** So it does on a NaN, where the [ValueError] is that of [int], and on
    [None]; here as the number of iterations. *)
Example invalid_iterations_nan :
  example_run (py.Int 2) py.NaN
  = (Raise (ValueError "cannot convert float NaN to integer"),
     example_state).
Proof. reflexivity. Qed.

Example invalid_iterations_none :
  example_run (py.Int 2) py.PyNone
  = (Raise (TypeError "NoneType"), example_state).
Proof. reflexivity. Qed.

(** C10 at [k = 2.0] and [number_of_iterations = True]. *)
Lemma integral_parameters_forwarded_witness :
  rejected (py.Float (2 # 1)) = Ok false
  ∧ rejected (py.Bool true) = Ok false
  ∧ ∃ km,
      fit_calls (example_run (py.Float (2 # 1)) (py.Bool true)).2
      = [] ++ [(km, np.transpose (np.Arr2 3 [[0; 1; 2]; [1; 1; 0]]))]
      ∧ n_clusters km = py.Num (py.Float (2 # 1))
      ∧ n_init km = py.Num (py.Bool true).
Proof.
  apply (integral_parameters_forwarded example_clusterer example_format
           example_state 1%positive 2%positive 3%positive 4%positive
           (np.Arr2 3 [[0; 1; 2]; [1; 1; 0]])
           (py.Float (2 # 1)) (py.Bool true) false);
    try reflexivity; unfold Qle; simpl; lia.
Defined.

(** C9 on the instance: the input's mutation labels after the call. *)
Lemma input_not_mutated_witness :
  heap (example_run (py.Int 2) (py.Int 10)).2 !! 4%positive
  = Some (PyList ["m1"; "m2"; "m3"]).
Proof.
  exact (proj1 (input_not_mutated example_clusterer example_format
                  1%positive (py.Int 2) (py.Int 10) false example_state)
           4%positive _ eq_refl).
Defined.

(** C3 on the instance. *)
Lemma label_partition_witness :
  ∃ r lm' ll' s' out,
 example_run (py.Int 2) (py.Int 10) = (Ok r, s')
    ∧ heap s' !! r = Some (PyGenotypeMatrix lm' 3%positive ll')
    ∧ heap s' !! ll' = Some (PyList out)
    ∧ concat (py.split "," <$> out) ≡ₚ ["m1"; "m2"; "m3"].
Proof.
  apply (label_partition example_clusterer example_format example_state
           1%positive 2%positive 3%positive 4%positive 3
           [[0; 1; 2]; [1; 1; 0]] ["c1"; "c2"] ["m1"; "m2"; "m3"]
           (py.Int 2) (py.Int 10) false _ example_matrix
           (positive_integer_int 2 ltac:(lia))
           (positive_integer_int 10 ltac:(lia))
           eq_refl example_contract).
  repeat constructor.
Defined.

(** C3 as stated fails when a label holds a comma: the input satisfies
    its invariant, the clusterer its contract, the call returns, and the
    one label ["a,b"] comes back as two. *)
Lemma label_partition_comma :
  genotype_matrix_at comma_state 1%positive 2%positive 3%positive
      4%positive 1 [[1]] ["c1"] ["a,b"]
  ∧ clusterer_contract (km_of (py.Int 1) (py.Int 1) false)
      (np.transpose (np.Arr2 1 [[1]]))
      {| labels_ := [0]; cluster_centroids_ := [[1]] |}
  ∧ ∃ r lm' ll' s' out,
      cluster_mutations comma_clusterer example_format 1%positive
        (py.Int 1) (py.Int 1) false comma_state = (Ok r, s')
      ∧ heap s' !! r = Some (PyGenotypeMatrix lm' 3%positive ll')
      ∧ heap s' !! ll' = Some (PyList out)
      ∧ ¬ concat (py.split "," <$> out) ≡ₚ ["a,b"].
Proof.
  split; [repeat split; repeat constructor|].
  split; [repeat split; repeat constructor; cbn; lia|].
  eexists _, _, _, _, _. split; [vm_compute; reflexivity|].
  split; [vm_compute; reflexivity|]. split; [vm_compute; reflexivity|].
  intros Hperm%Permutation_length. discriminate Hperm.
Qed.

(** C4 on the instance. *)
Lemma reduced_shape_witness :
  ∃ r lm' ll' s' out_rows out_labels,
 example_run (py.Int 2) (py.Int 10) = (Ok r, s')
    ∧ heap s' !! r = Some (PyGenotypeMatrix lm' 3%positive ll')
    ∧ heap s' !! 3%positive = Some (PyList ["c1"; "c2"])
    ∧ heap s' !! lm'
      = Some (PyArray (np.Arr2 (length out_labels) out_rows))
    ∧ heap s' !! ll' = Some (PyList out_labels)
    ∧ length out_rows = 2%nat
    ∧ Forall (λ row, length row = length out_labels) out_rows
    ∧ length out_labels
      = length (cluster_ids (zip ["m1"; "m2"; "m3"] [1; 0; 1]))
    ∧ 1 ≤ Z.of_nat (length out_labels) ≤ 2.
Proof.
  exact (reduced_shape example_clusterer example_format example_state
           1%positive 2%positive 3%positive 4%positive 3
           [[0; 1; 2]; [1; 1; 0]] ["c1"; "c2"] ["m1"; "m2"; "m3"]
           (py.Int 2) (py.Int 10) false _ example_matrix
           ltac:(lia)
           (positive_integer_int 2 ltac:(lia))
           (positive_integer_int 10 ltac:(lia))
           eq_refl example_contract).
Defined.


(** The reduced matrix of the instance, value by value: centroid [[0; 1]]
    of cluster 0 in the first column, centroid [[1; 1]] of cluster 1 in the
    second. *)
Example reduced_matrix_values :
  ∃ r lm' ll' s',
    example_run (py.Int 2) (py.Int 10) = (Ok r, s')
    ∧ heap s' !! r = Some (PyGenotypeMatrix lm' 3%positive ll')
    ∧ heap s' !! lm' = Some (PyArray (np.Arr2 2 [[0; 1]; [1; 1]])).
Proof.
  eexists _, _, _, _. split; [vm_compute; reflexivity|].
  split; vm_compute; reflexivity.
Qed.

End instances.

(** * Further properties of the dissimilarity (lines 31-33) *)

Section dissimilarity_more.

Import np.

Lemma conflict_count_le a b : conflict_count a b ≤ Z.of_nat (length a).
Proof.
  unfold conflict_count, conflict_positions.
  pose proof (length_filter (is_conflict a b) (seq 0 (length a))) as Hle.
  rewrite length_seq in Hle. lia.
Qed.

Lemma count_true_app l1 l2 :
  count_true (l1 ++ l2) = count_true l1 + count_true l2.
Proof.
  induction l1 as [|x l1 IH]; [done|].
  change (count_true ((x :: l1) ++ l2))
    with ((if x then 1 else 0) + count_true (l1 ++ l2)).
  change (count_true (x :: l1)) with ((if x then 1 else 0) + count_true l1).
  rewrite IH. lia.
Qed.

Lemma conflict_count_app a1 a2 b1 b2 :
  length a1 = length b1 → length a2 = length b2 →
  conflict_count (a1 ++ a2) (b1 ++ b2)
  = conflict_count a1 b1 + conflict_count a2 b2.
Proof.
  intros H1 H2. rewrite <- !count_true_conflict by (rewrite ?length_app; lia).
  rewrite zip_with_app by done. apply count_true_app.
Qed.

Lemma conflict_count_mask a b i :
  length a = length b →
  (is_conflict a b i → conflict_count (<[i:=2]> a) b = conflict_count a b - 1)
  ∧ (¬ is_conflict a b i → conflict_count (<[i:=2]> a) b = conflict_count a b).
Proof.
  revert b i. induction a as [|x a IH]; intros [|y b] i Hlen; try done.
  { split; [|done]. intros (_ & _ & Hne). by destruct i. }
  simplify_eq/=. destruct i as [|i].
  - change (<[0%nat:=2]> (x :: a)) with (2 :: a).
    rewrite !conflict_count_cons. unfold is_conflict. cbn [nth].
    rewrite <- conflict_true.
    replace (conflict 2 y) with false by (unfold conflict; by rewrite Z.eqb_refl).
    split.
    + intros ->. lia.
    + intros Hc. destruct (conflict x y); [done|lia].
  - change (<[S i:=2]> (x :: a)) with (x :: <[i:=2]> a).
    rewrite !conflict_count_cons.
    destruct (IH b i ltac:(done)) as [IH1 IH2].
    split; intros Hc.
    + rewrite IH1 by exact Hc. lia.
    + by rewrite IH2 by exact Hc.
Qed.

(** One row against one vector. *)
Lemma conflict_dissim_pair a b :
  a ≠ [] → length a = length b →
  _conflict_dissim (Arr1 a) (Arr2 (length a) [b])
  = Ok (Arr1 [conflict_count a b]).
Proof.
  intros Ha Hlen. apply (conflict_dissim_rows a [b]); [done..|].
  by apply Forall_singleton.
Qed.

(** X1.  Against a non-empty grid of rows as long as the non-empty vector
    [a], the function returns one distance per row, each between 0 and the
    number of cells. *)
Theorem conflict_dissim_bounds a rows :
  a ≠ [] → rows ≠ [] → Forall (λ b, length b = length a) rows →
  ∃ ds, _conflict_dissim (Arr1 a) (Arr2 (length a) rows) = Ok (Arr1 ds)
        ∧ length ds = length rows
        ∧ Forall (λ d, 0 ≤ d ≤ Z.of_nat (length a)) ds.
Proof.
  intros Ha Hrows Hlen. exists (conflict_count a <$> rows).
  split; [by apply conflict_dissim_rows|]. split; [by rewrite length_fmap|].
  apply Forall_fmap, Forall_forall. intros b _. cbn.
  split; [apply conflict_count_nonneg|apply conflict_count_le].
Qed.

Lemma conflict_dissim_bounds_witness :
  ∃ ds, _conflict_dissim (Arr1 [0; 1; 2; 0])
          (Arr2 4 [[0; 0; 2; 1]; [1; 0; 0; 1]]) = Ok (Arr1 ds)
        ∧ length ds = 2%nat
        ∧ Forall (λ d, 0 ≤ d ≤ 4) ds.
Proof.
  exact (conflict_dissim_bounds [0; 1; 2; 0] [[0; 0; 2; 1]; [1; 0; 0; 1]]
           ltac:(discriminate) ltac:(discriminate)
           ltac:(repeat constructor)).
Defined.

(** X2.  The distance adds up over blocks of cells: the distance between two
    concatenations is the sum of the distances between their parts. *)
Theorem conflict_dissim_blocks a1 a2 b1 b2 :
  a1 ≠ [] → a2 ≠ [] → length a1 = length b1 → length a2 = length b2 →
  ∃ d1 d2,
    _conflict_dissim (Arr1 a1) (Arr2 (length a1) [b1]) = Ok (Arr1 [d1])
    ∧ _conflict_dissim (Arr1 a2) (Arr2 (length a2) [b2]) = Ok (Arr1 [d2])
    ∧ _conflict_dissim (Arr1 (a1 ++ a2))
        (Arr2 (length (a1 ++ a2)) [b1 ++ b2])
      = Ok (Arr1 [d1 + d2]).
Proof.
  intros H1 H2 Hl1 Hl2.
  exists (conflict_count a1 b1), (conflict_count a2 b2).
  split; [by apply conflict_dissim_pair|].
  split; [by apply conflict_dissim_pair|].
  rewrite <- conflict_count_app by done. apply conflict_dissim_pair.
  - by destruct a1.
  - rewrite !length_app. lia.
Qed.

Lemma conflict_dissim_blocks_witness :
  ∃ d1 d2,
    _conflict_dissim (Arr1 [0; 1]) (Arr2 2 [[1; 1]]) = Ok (Arr1 [d1])
    ∧ _conflict_dissim (Arr1 [2; 0]) (Arr2 2 [[0; 1]]) = Ok (Arr1 [d2])
    ∧ _conflict_dissim (Arr1 [0; 1; 2; 0]) (Arr2 4 [[1; 1; 0; 1]])
      = Ok (Arr1 [d1 + d2]).
Proof.
  exact (conflict_dissim_blocks [0; 1] [2; 0] [1; 1] [0; 1]
           ltac:(discriminate) ltac:(discriminate) eq_refl eq_refl).
Defined.

(** X3.  Marking a cell of [a] as missing never increases the distance: it
    lowers it by one when the cell was a conflict and leaves it as it was
    otherwise. *)
Theorem conflict_dissim_masking a b i :
  a ≠ [] → length a = length b →
  ∃ d d',
    _conflict_dissim (Arr1 a) (Arr2 (length a) [b]) = Ok (Arr1 [d])
    ∧ _conflict_dissim (Arr1 (<[i:=2]> a)) (Arr2 (length a) [b])
      = Ok (Arr1 [d'])
    ∧ d' ≤ d
    ∧ (is_conflict a b i → d' = d - 1)
    ∧ (¬ is_conflict a b i → d' = d).
Proof.
  intros Ha Hlen.
  exists (conflict_count a b), (conflict_count (<[i:=2]> a) b).
  split; [by apply conflict_dissim_pair|]. split.
  - rewrite <- (length_insert a i 2). apply conflict_dissim_pair.
    + intros Hnil. apply Ha. apply length_zero_iff_nil.
      by rewrite <- (length_insert a i 2), Hnil.
    + by rewrite length_insert.
  - destruct (conflict_count_mask a b i Hlen) as [H1 H2].
    split; [|done].
    destruct (decide (is_conflict a b i)) as [Hc|Hc];
      [rewrite H1 by done|rewrite H2 by done]; lia.
Qed.

Lemma conflict_dissim_masking_witness :
  ∃ d d',
    _conflict_dissim (Arr1 [0; 1; 2; 0]) (Arr2 4 [[0; 0; 2; 1]])
    = Ok (Arr1 [d])
    ∧ _conflict_dissim (Arr1 [0; 2; 2; 0]) (Arr2 4 [[0; 0; 2; 1]])
      = Ok (Arr1 [d'])
    ∧ d' ≤ d
    ∧ (is_conflict [0; 1; 2; 0] [0; 0; 2; 1] 1 → d' = d - 1)
    ∧ (¬ is_conflict [0; 1; 2; 0] [0; 0; 2; 1] 1 → d' = d).
Proof.
  exact (conflict_dissim_masking [0; 1; 2; 0] [0; 0; 2; 1] 1
           ltac:(discriminate) eq_refl).
Defined.

Lemma stretch_replicate {A} m (x : A) :
  stretch m (replicate m x) = replicate m x.
Proof. rewrite <- (length_replicate m x) at 1. apply stretch_same. Qed.

(** X4.  A one-element vector is not refused against longer rows: numpy
    broadcasts it, and the result is that of the element repeated over all
    the cells. *)
Theorem conflict_dissim_broadcast_one x m rows :
  (0 < m)%nat → rows ≠ [] →
  _conflict_dissim (Arr1 [x]) (Arr2 m rows)
  = _conflict_dissim (Arr1 (replicate m x)) (Arr2 m rows).
Proof.
  intros Hm Hrows. unfold _conflict_dissim. f_equal.
  unfold vectorize. cbn [size]. rewrite length_replicate.
  change (length [x]) with 1%nat.
  destruct m as [|m]; [lia|]. cbn [Nat.eqb orb].
  destruct (_ =? 0)%nat; [done|].
  unfold broadcast2. cbn [length].
  rewrite !broadcast_dim_1_l, broadcast_dim_same. do 2 f_equal.
  cbn [stretch].
  rewrite !zip_with_replicate_l by (by destruct rows as [|? [|? ?]]).
  apply list_fmap_ext. intros _ b _.
  by rewrite stretch_replicate.
Qed.

Lemma conflict_dissim_broadcast_one_witness :
  _conflict_dissim (Arr1 [1]) (Arr2 3 [[0; 1; 2]; [0; 0; 0]])
  = _conflict_dissim (Arr1 [1; 1; 1]) (Arr2 3 [[0; 1; 2]; [0; 0; 0]]).
Proof.
  exact (conflict_dissim_broadcast_one 1 3 [[0; 1; 2]; [0; 0; 0]]
           ltac:(lia) ltac:(discriminate)).
Defined.

(** X5.  A vector whose length is neither that of the rows nor 1, against
    rows of more than one cell, is refused with numpy's [ValueError]; nothing
    is truncated. *)
Theorem conflict_dissim_length_mismatch a m rows :
  a ≠ [] → rows ≠ [] →
  length a ≠ m → length a ≠ 1%nat → (1 < m)%nat →
  ∃ msg, _conflict_dissim (Arr1 a) (Arr2 m rows) = Raise (ValueError msg).
Proof.
  intros Ha Hrows Hne H1 Hm. unfold _conflict_dissim, vectorize. cbn [size].
  destruct (Nat.eqb_spec (length a) 0) as [E|_]; [by destruct a|].
  destruct (Nat.eqb_spec (length rows * m) 0) as [E|_].
  { destruct rows; [done|cbn in E; lia]. }
  cbn [orb]. unfold broadcast2, broadcast_dim at 2.
  destruct (Nat.eqb_spec (length a) m) as [?|_]; [done|].
  destruct (Nat.eqb_spec (length a) 1) as [?|_]; [done|].
  destruct (Nat.eqb_spec m 1) as [?|_]; [lia|].
  destruct (broadcast_dim _ _); by eexists.
Qed.

Lemma conflict_dissim_length_mismatch_witness :
  ∃ msg, _conflict_dissim (Arr1 [0; 1]) (Arr2 3 [[0; 1; 2]])
         = Raise (ValueError msg).
Proof.
  exact (conflict_dissim_length_mismatch [0; 1] 3 [[0; 1; 2]]
           ltac:(discriminate) ltac:(discriminate)
           ltac:(simpl; lia) ltac:(simpl; lia) ltac:(lia)).
Defined.

Lemma zip_rows L (r1 r2 : list (list Z)) :
  Forall (λ u, length u = L) r1 → Forall (λ v, length v = L) r2 →
  count_true <$> zip_with
    (λ u v, zip_with conflict (stretch L u) (stretch L v)) r1 r2
  = zip_with conflict_count r1 r2.
Proof.
  intros H1. revert r2. induction H1 as [|u r1 Hu _ IH]; intros r2 H2.
  { done. }
  destruct H2 as [|v r2 Hv H2]; [done|]. cbn. f_equal; [|by apply IH].
  rewrite <- Hu at 1. rewrite stretch_same.
  rewrite <- Hv at 1. rewrite stretch_same.
  apply count_true_conflict. congruence.
Qed.

(** X6.  Two grids of the same shape are compared row against row. *)
Theorem conflict_dissim_grids L r1 r2 :
  (0 < L)%nat → r1 ≠ [] → length r1 = length r2 →
  Forall (λ u, length u = L) r1 → Forall (λ v, length v = L) r2 →
  _conflict_dissim (Arr2 L r1) (Arr2 L r2)
  = Ok (Arr1 (zip_with conflict_count r1 r2)).
Proof.
  intros HL Hr1 Hlen H1 H2. unfold _conflict_dissim, vectorize. cbn [size].
  destruct (Nat.eqb_spec (length r1 * L) 0) as [E|_].
  { destruct r1; [done|cbn in E; lia]. }
  destruct (Nat.eqb_spec (length r2 * L) 0) as [E|_].
  { destruct r2; [by destruct r1|cbn in E; lia]. }
  cbn [orb]. unfold broadcast2.
  rewrite <- Hlen, !broadcast_dim_same. cbn [rbind sum_axis1].
  rewrite stretch_same. rewrite Hlen at 1. rewrite stretch_same.
  do 2 f_equal. by apply zip_rows.
Qed.

Lemma conflict_dissim_grids_witness :
  _conflict_dissim (Arr2 2 [[0; 1]; [2; 0]]) (Arr2 2 [[1; 1]; [0; 1]])
  = Ok (Arr1 [1; 1]).
Proof.
  exact (conflict_dissim_grids 2 [[0; 1]; [2; 0]] [[1; 1]; [0; 1]]
           ltac:(lia) ltac:(discriminate) eq_refl
           ltac:(repeat constructor) ltac:(repeat constructor)).
Defined.

(** X7.  The distance is no metric: two cells that disagree are at distance
    1 from each other, but both at distance 0 from a missing cell, so the
    triangle inequality fails through a missing value. *)
Theorem conflict_dissim_triangle x y :
  x ≠ 2 → y ≠ 2 → x ≠ y →
  _conflict_dissim (Arr1 [x]) (Arr2 1 [[y]]) = Ok (Arr1 [1])
  ∧ _conflict_dissim (Arr1 [x]) (Arr2 1 [[2]]) = Ok (Arr1 [0])
  ∧ _conflict_dissim (Arr1 [2]) (Arr2 1 [[y]]) = Ok (Arr1 [0]).
Proof.
  intros Hx Hy Hxy.
  pose proof (conflict_dissim_pair [x] [y] ltac:(done) eq_refl) as H1.
  pose proof (conflict_dissim_pair [x] [2] ltac:(done) eq_refl) as H2.
  pose proof (conflict_dissim_pair [2] [y] ltac:(done) eq_refl) as H3.
  cbn [length] in H1, H2, H3. rewrite H1, H2, H3.
  rewrite !conflict_count_cons.
  replace (conflict x y) with true
    by (symmetry; by apply conflict_true).
  replace (conflict x 2) with false
    by (unfold conflict; rewrite Z.eqb_refl; by destruct (x =? 2)).
  replace (conflict 2 y) with false
    by (unfold conflict; by rewrite Z.eqb_refl).
  done.
Qed.

Lemma conflict_dissim_triangle_witness :
  _conflict_dissim (Arr1 [0]) (Arr2 1 [[1]]) = Ok (Arr1 [1])
  ∧ _conflict_dissim (Arr1 [0]) (Arr2 1 [[2]]) = Ok (Arr1 [0])
  ∧ _conflict_dissim (Arr1 [2]) (Arr2 1 [[1]]) = Ok (Arr1 [0]).
Proof.
  exact (conflict_dissim_triangle 0 1 ltac:(lia) ltac:(lia) ltac:(lia)).
Defined.

(** X16.  A non-empty row is at distance 0 from itself, whatever it holds:
    equal values never conflict. *)
Theorem conflict_dissim_self a :
  a ≠ [] →
  _conflict_dissim (Arr1 a) (Arr2 (length a) [a]) = Ok (Arr1 [0]).
Proof.
  intros Ha. rewrite (conflict_dissim_pair a a Ha eq_refl). do 3 f_equal.
  unfold conflict_count, conflict_positions.
  induction (seq 0 (length a)) as [|i l IH]; [done|].
  rewrite filter_cons_False; [done|]. intros (_ & _ & Hne). by apply Hne.
Qed.

Lemma conflict_dissim_self_witness :
  _conflict_dissim (Arr1 [0; 1; 2]) (Arr2 3 [[0; 1; 2]]) = Ok (Arr1 [0]).
Proof. exact (conflict_dissim_self [0; 1; 2] ltac:(done)). Defined.

End dissimilarity_more.

(** * Further properties of [cluster_mutations] (lines 35-96) *)

Section run_more.

Variable fit_predict : KModes → np.ndarray Z → result fitted.
Variable format : py.scalar → string.

(** The index of a row is in range when it lies between [-n] and [n - 1]. *)
Lemma getrow_Raise {A} (rows : list (list A)) c :
  ¬ (- Z.of_nat (length rows) ≤ c < Z.of_nat (length rows)) →
  np.getrow rows c = Raise (IndexError c (length rows)).
Proof.
  intros Hc. unfold np.getrow.
  destruct (Z.ltb_spec c 0); cbn zeta.
  - destruct (Z.leb_spec 0 (c + Z.of_nat (length rows))); [lia|done].
  - destruct (Z.leb_spec 0 c); [|lia].
    destruct (Z.ltb_spec c (Z.of_nat (length rows))); [lia|done].
Qed.

Lemma getrow_Raise_inv {A} (rows : list (list A)) c e :
  np.getrow rows c = Raise e →
  e = IndexError c (length rows)
  ∧ ¬ (- Z.of_nat (length rows) ≤ c < Z.of_nat (length rows)).
Proof.
  unfold np.getrow. set (n := Z.of_nat (length rows)).
  set (j := if c <? 0 then c + n else c).
  destruct (Z.leb_spec 0 j) as [Hj1|Hj1];
    destruct (Z.ltb_spec j n) as [Hj2|Hj2]; cbn [andb].
  - destruct (lookup_lt_is_Some_2 rows (Z.to_nat j)) as [r Hr]; [lia|].
    by rewrite Hr.
  - intros [= <-]. split; [done|]. unfold j in *.
    destruct (Z.ltb_spec c 0); lia.
  - intros [= <-]. split; [done|]. unfold j in *.
    destruct (Z.ltb_spec c 0); lia.
  - intros [= <-]. split; [done|]. unfold j in *.
    destruct (Z.ltb_spec c 0); lia.
Qed.

(** A comprehension over a function that only returns or raises: the store
    is left alone; either every item gave a value, or the error is that of
    some item. *)
Lemma for_each_lift_result {A B} (f : A → result B) l s :
  (for_each (λ x, lift (f x)) l s).2 = s
  ∧ match (for_each (λ x, lift (f x)) l s).1 with
    | Ok rs => Forall2 (λ x r, f x = Ok r) l rs
    | Raise e => ∃ x, x ∈ l ∧ f x = Raise e
    end.
Proof.
  induction l as [|x l [IHs IHr]]; [by split; [|constructor]|].
  cbn [for_each]. destruct (f x) as [r|e] eqn:Hx.
  - rewrite (bind_Ok _ _ s r s) by done.
    destruct (for_each (λ x, lift (f x)) l s) as [[rs|e] s'] eqn:Hl;
      cbn in IHs, IHr; subst s'.
    + rewrite (bind_Ok _ _ _ _ _ Hl). cbn. split; [done|]. by constructor.
    + unfold bind. rewrite Hl. cbn. split; [done|].
      destruct IHr as (x' & Hin & Hx'). exists x'. split; [by right|done].
  - unfold bind, lift. cbn. split; [done|].
    exists x. split; [left|done].
Qed.

(** Lines 62-90: up to the joined labels. *)
Lemma cluster_mutations_upto_labels s g lm lc ll data labels k n verbose f :
  heap s !! g = Some (PyGenotypeMatrix lm lc ll) →
  heap s !! lm = Some (PyArray data) →
  heap s !! ll = Some (PyList labels) →
  rejected k = Ok false → rejected n = Ok false →
  fit_predict (km_of k n verbose) (np.transpose data) = Ok f →
  let pairs := zip labels (labels_ f) in
  ∃ s2 lstr,
    cluster_mutations fit_predict format g k n verbose s
    = (let* out_matrix :=
         for_each (λ c, lift (np.getrow (cluster_centroids_ f) c))
           (cluster_ids pairs) in
       let* out_matrix := lift (np.array out_matrix) in
       let* out_matrix := alloc (PyArray (np.transpose out_matrix)) in
       let* cell_labels := gm_cell_labels g in
       GenotypeMatrix out_matrix cell_labels lstr) s2
    ∧ heap s ⊆ heap s2
    ∧ heap s2 !! lstr
      = Some (PyList ((λ c, py.join "," (members pairs c))
                        <$> cluster_ids pairs))
    ∧ fit_calls s2
      = fit_calls s ++ [(km_of k n verbose, np.transpose data)].
Proof.
  intros Hg Hm Hl Hk Hn Hfit pairs.
  pass_validation Hk Hn.
  rewrite (bind_Ok _ _ _ _ _ (gm_matrix_Ok _ _ _ _ _ _ Hg Hm)).
  rewrite (bind_Ok _ _ _ _ _ (gm_mutation_labels_Ok _ _ _ _ _ Hg)).
  fold (km_of k n verbose).
  erewrite bind_Ok; cycle 1.
  { unfold km_fit_predict. by rewrite Hfit. }
  set (s0 := {| heap := heap s;
                fit_calls := fit_calls s ++ [(km_of k n verbose,
                                              np.transpose data)] |}).
  destruct (group_labels_run (heap s) ll labels Hl (labels_ f) 0 [] s0 []
              (dict_inv_nil _)) as (d & s1 & Hloop & Hinv & Hcalls1).
  rewrite app_nil_l, drop_0 in Hinv. fold pairs in Hinv.
  erewrite bind_Ok; [|exact Hloop].
  rewrite (sorted_keys _ _ _ _ Hinv).
  erewrite bind_Ok; cycle 1.
  { apply (for_each_strings _ _ _ _ _ Hinv). intros c Hc.
    apply elem_of_cluster_ids in Hc. by apply Hinv. }
  erewrite bind_Ok; [|done]. cbn [heap fit_calls].
  eexists _, _. split; [done|]. cbn [heap fit_calls].
  assert (heap s ⊆ heap s1) as Hext1 by apply Hinv.
  split; [|split; [apply lookup_insert_eq|done]].
  apply insert_subseteq_r; [|done].
  apply (lookup_weaken_None _ (heap s1)); [|done].
  apply not_elem_of_dom, is_fresh.
Qed.

Lemma fst_zip_take {A B} (l : list A) (k : list B) :
  (zip l k).*1 = take (length k) l.
Proof.
  revert k. induction l as [|x l IH]; intros [|y k]; try done.
  cbn. by rewrite IH.
Qed.

(** A call that returned went through every row selection and through the
    stacking. *)
Lemma cluster_mutations_returned s g lm lc ll data labels k n verbose f
    r s' :
  heap s !! g = Some (PyGenotypeMatrix lm lc ll) →
  heap s !! lm = Some (PyArray data) →
  heap s !! ll = Some (PyList labels) →
  rejected k = Ok false → rejected n = Ok false →
  fit_predict (km_of k n verbose) (np.transpose data) = Ok f →
  cluster_mutations fit_predict format g k n verbose s = (Ok r, s') →
  ∃ cents arr,
    Forall2 (λ c row, np.getrow (cluster_centroids_ f) c = Ok row)
      (cluster_ids (zip labels (labels_ f))) cents
    ∧ np.array cents = Ok arr.
Proof.
  intros Hg Hm Hl Hk Hn Hfit Hrun.
  destruct (cluster_mutations_upto_labels s g lm lc ll data labels k n
              verbose f Hg Hm Hl Hk Hn Hfit)
    as (s2 & lstr & Heq & _).
  rewrite Heq in Hrun. clear Heq.
  destruct (for_each_lift_result (np.getrow (cluster_centroids_ f))
              (cluster_ids (zip labels (labels_ f))) s2) as [Hs Hres].
  unfold bind at 1 in Hrun.
  destruct (for_each _ _ s2) as [[cents|e] s3]; [|done].
  cbn in Hs, Hres. subst s3. exists cents.
  unfold bind at 1, lift at 1 in Hrun.
  destruct (np.array cents) as [arr|e]; [|done]. by exists arr.
Qed.

(** X8.  A failure of the clusterer is the failure of the call: the same
    exception comes out, the store is as it was, and the clusterer has been
    called once. *)
Theorem clusterer_error_propagates s g lm lc ll data k n verbose e :
  heap s !! g = Some (PyGenotypeMatrix lm lc ll) →
  heap s !! lm = Some (PyArray data) →
  positive_integer k → positive_integer n →
  fit_predict (km_of k n verbose) (np.transpose data) = Raise e →
  cluster_mutations fit_predict format g k n verbose s
  = (Raise e,
     {| heap := heap s;
        fit_calls := fit_calls s
                     ++ [(km_of k n verbose, np.transpose data)] |}).
Proof.
  intros Hg Hm Hk%rejected_false Hn%rejected_false Hfit.
  pass_validation Hk Hn.
  rewrite (bind_Ok _ _ _ _ _ (gm_matrix_Ok _ _ _ _ _ _ Hg Hm)).
  rewrite (bind_Ok _ _ _ _ _ (gm_mutation_labels_Ok _ _ _ _ _ Hg)).
  fold (km_of k n verbose).
  unfold bind at 1, km_fit_predict. by rewrite Hfit.
Qed.

(** X9.  When the id given to some mutation has no row in the grid of
    centroids (it lies outside [-rows, rows - 1]), the call raises numpy's
    [IndexError] for such an id instead of returning. *)
Theorem stray_cluster_id_raises s g lm lc ll data labels k n verbose f c0 :
  heap s !! g = Some (PyGenotypeMatrix lm lc ll) →
  heap s !! lm = Some (PyArray data) →
  heap s !! ll = Some (PyList labels) →
  positive_integer k → positive_integer n →
  fit_predict (km_of k n verbose) (np.transpose data) = Ok f →
  c0 ∈ (zip labels (labels_ f)).*2 →
  ¬ (- Z.of_nat (length (cluster_centroids_ f)) ≤ c0
     < Z.of_nat (length (cluster_centroids_ f))) →
  ∃ c,
    c ∈ labels_ f
    ∧ ¬ (- Z.of_nat (length (cluster_centroids_ f)) ≤ c
         < Z.of_nat (length (cluster_centroids_ f)))
    ∧ (cluster_mutations fit_predict format g k n verbose s).1
      = Raise (IndexError c (length (cluster_centroids_ f))).
Proof.
  intros Hg Hm Hl Hk%rejected_false Hn%rejected_false Hfit Hc0 Hout.
  destruct (cluster_mutations_upto_labels s g lm lc ll data labels k n
              verbose f Hg Hm Hl Hk Hn Hfit)
    as (s2 & lstr & -> & _).
  destruct (for_each_lift_result (np.getrow (cluster_centroids_ f))
              (cluster_ids (zip labels (labels_ f))) s2) as [Hs Hres].
  unfold bind at 1.
  destruct (for_each _ _ s2) as [[cents|e] s3]; cbn in Hs, Hres.
  - apply elem_of_cluster_ids, list_elem_of_lookup in Hc0 as [j Hj].
    destruct (Forall2_lookup_l _ _ _ _ _ Hres Hj) as (row & _ & Hrow).
    by rewrite getrow_Raise in Hrow.
  - destruct Hres as (c & Hc%elem_of_cluster_ids%snd_zip_elem & He).
    apply getrow_Raise_inv in He as [-> Hrange]. by exists c.
Qed.

(** X10.  When the clusterer returns fewer ids than the matrix has labels,
    the call does not fail: [zip] stops at the shorter sequence, and the
    labels in excess are absent from the result.  For comma-free labels, what
    the output labels split into is the first labels, one per id. *)
Theorem surplus_labels_dropped s g lm lc ll data labels k n verbose f r s' :
  heap s !! g = Some (PyGenotypeMatrix lm lc ll) →
  heap s !! lm = Some (PyArray data) →
  heap s !! ll = Some (PyList labels) →
  positive_integer k → positive_integer n →
  fit_predict (km_of k n verbose) (np.transpose data) = Ok f →
  Forall (λ m, contains "," m = false) labels →
  cluster_mutations fit_predict format g k n verbose s = (Ok r, s') →
  ∃ lm' ll' out,
    heap s' !! r = Some (PyGenotypeMatrix lm' lc ll')
    ∧ heap s' !! ll' = Some (PyList out)
    ∧ concat (py.split "," <$> out) ≡ₚ take (length (labels_ f)) labels.
Proof.
  intros Hg Hm Hl Hk%rejected_false Hn%rejected_false Hfit Hcomma Hrun.
  destruct (cluster_mutations_returned s g lm lc ll data labels k n verbose
              f r s' Hg Hm Hl Hk Hn Hfit Hrun) as (cents & arr & Hsel & Harr).
  destruct (cluster_mutations_run fit_predict format s g lm lc ll data labels
              k n verbose f cents arr Hg Hm Hl Hk Hn Hfit Hsel Harr)
    as (r0 & lm' & ll' & s0 & Hrun0 & Hr & _ & Hll & _).
  rewrite Hrun in Hrun0. simplify_eq.
  set (pairs := zip labels (labels_ f)) in *.
  eexists lm', ll', _. split; [done|]. split; [done|].
  rewrite <- list_fmap_compose.
  erewrite (list_fmap_ext _ (members pairs)).
  - etrans; [apply members_partition|unfold pairs; by rewrite fst_zip_take].
    + apply NoDup_cluster_ids.
    + intros c. apply elem_of_cluster_ids.
  - intros i c Hc%list_elem_of_lookup_2%elem_of_cluster_ids. cbn.
    apply (split_join ","%char); [by apply members_not_nil|].
    apply Forall_forall. intros x Hx%members_elem.
    unfold pairs in Hx. rewrite fst_zip_take in Hx.
    apply subseteq_take in Hx.
    by apply (proj1 (Forall_forall _ _) Hcomma).
Qed.

(** X11.  Without a label or without an id there is nothing to group: no
    exception is raised on the way, and the constructor is handed no label
    and an empty one-dimensional array (in place of a grid with one row per
    cell). *)
Theorem empty_assignment s g lm lc ll data labels k n verbose f :
  heap s !! g = Some (PyGenotypeMatrix lm lc ll) →
  heap s !! lm = Some (PyArray data) →
  heap s !! ll = Some (PyList labels) →
  positive_integer k → positive_integer n →
  fit_predict (km_of k n verbose) (np.transpose data) = Ok f →
  labels = [] ∨ labels_ f = [] →
  ∃ r lm' ll' s',
    cluster_mutations fit_predict format g k n verbose s = (Ok r, s')
    ∧ heap s' !! r = Some (PyGenotypeMatrix lm' lc ll')
    ∧ heap s' !! lm' = Some (PyArray (np.Arr1 []))
    ∧ heap s' !! ll' = Some (PyList []).
Proof.
  intros Hg Hm Hl Hk%rejected_false Hn%rejected_false Hfit Hempty.
  assert (zip labels (labels_ f) = []) as Hpairs.
  { destruct Hempty as [-> | ->]; [done|apply zip_with_nil_r]. }
  destruct (cluster_mutations_run fit_predict format s g lm lc ll data labels
              k n verbose f [] (np.Arr1 []) Hg Hm Hl Hk Hn Hfit)
    as (r & lm' & ll' & s' & Hrun & Hr & Hlm & Hll & _).
  { rewrite Hpairs. constructor. }
  { done. }
  rewrite Hpairs in Hll. by exists r, lm', ll', s'.
Qed.

(** X12.  The clusterer is called once, after validation, with [k] clusters,
    [number_of_iterations] restarts, the conflict dissimilarity, the
    ["huang"] initialisation and verbosity 1 or 0; it is handed one point per
    mutation, the column of that mutation, with one entry per cell. *)
Theorem clusterer_called_on_columns s g lm lc ll ncols rows cells labels
    k n (flag : bool) :
  genotype_matrix_at s g lm lc ll ncols rows cells labels →
  positive_integer k → positive_integer n →
  ∃ km points,
    fit_calls (cluster_mutations fit_predict format g k n flag s).2
    = fit_calls s ++ [(km, np.Arr2 (length rows) points)]
    ∧ n_clusters km = k ∧ n_init km = n ∧ init km = "huang"
    ∧ verbose km = (if flag then 1 else 0)
    ∧ (∀ x y, cat_dissim km x y = _conflict_dissim x y)
    ∧ length points = ncols
    ∧ ∀ j, (j < ncols)%nat →
        points !! j = Some ((λ row, nth j row 0) <$> rows).
Proof.
  intros (Hg & Hm & _) Hk%rejected_false Hn%rejected_false.
  exists (km_of k n flag), (np.column 0 rows <$> seq 0 ncols).
  split.
  { by apply (cluster_mutations_calls fit_predict format s g lm lc ll
                (np.Arr2 ncols rows)). }
  do 5 (split; [done|]). split; [by rewrite length_fmap, length_seq|].
  intros j Hj. by rewrite list_lookup_fmap, lookup_seq_lt.
Qed.

Lemma members_singleton pairs c :
  NoDup (pairs.*2) → c ∈ pairs.*2 → ∃ x, members pairs c = [x].
Proof.
  induction pairs as [|[x c'] pairs IH]; [by intros _ ?%elem_of_nil|].
  rewrite fmap_cons, NoDup_cons, elem_of_cons, members_cons. cbn [snd].
  intros [Hc' Hnd] [->|Hin].
  - exists x. by rewrite decide_True, members_nil by done.
  - rewrite decide_False by (intros ->; done). by apply IH.
Qed.

Lemma concat_singletons {A B} (g : A → B) l :
  concat ((λ c, [g c]) <$> l) = g <$> l.
Proof. induction l as [|x l IH]; [done|]. cbn. by rewrite IH. Qed.

Lemma contract_lengths km ncols rows f (labels : list string) :
  clusterer_contract km (np.transpose (np.Arr2 ncols rows)) f →
  length labels = ncols →
  length (labels_ f) = length labels.
Proof.
  unfold clusterer_contract. cbn [np.transpose].
  destruct (n_clusters km); [|done..]. intros (Hlen & _) Hlabels.
  rewrite length_fmap, length_seq in Hlen. lia.
Qed.

(** X13.  When the clusterer gives every mutation a cluster of its own,
    nothing is merged: the output labels are the input labels, reordered by
    cluster id. *)
Theorem distinct_clusters_keep_labels s g lm lc ll ncols rows cells labels
    k n verbose f :
  genotype_matrix_at s g lm lc ll ncols rows cells labels →
  positive_integer k → positive_integer n →
  fit_predict (km_of k n verbose) (np.transpose (np.Arr2 ncols rows))
  = Ok f →
  clusterer_contract (km_of k n verbose)
    (np.transpose (np.Arr2 ncols rows)) f →
  NoDup (labels_ f) →
  ∃ r lm' ll' s' out,
    cluster_mutations fit_predict format g k n verbose s = (Ok r, s')
    ∧ heap s' !! r = Some (PyGenotypeMatrix lm' lc ll')
    ∧ heap s' !! ll' = Some (PyList out)
    ∧ out ≡ₚ labels.
Proof.
  intros Hgm Hk%rejected_false Hn%rejected_false Hfit Hcontract Hnd.
  destruct (cluster_mutations_reduced fit_predict format _ _ _ _ _ _ _ _ _
              _ _ _ _ Hgm Hk Hn Hfit Hcontract)
    as (r & lm' & ll' & s' & cents & Hrun & Hr & _ & Hll & _ & _ & Hfst & _).
  assert (length (labels_ f) = length labels) as Hlen.
  { eapply contract_lengths; [done|]. apply Hgm. }
  set (pairs := zip labels (labels_ f)) in *.
  assert (pairs.*2 = labels_ f) as Hsnd by (apply snd_zip; lia).
  eexists r, lm', ll', s', _. split; [done|]. split; [done|].
  split; [done|].
  rewrite <- concat_singletons.
  erewrite (list_fmap_ext _ (members pairs)).
  - etrans; [apply members_partition|by rewrite Hfst].
    + apply NoDup_cluster_ids.
    + intros c. apply elem_of_cluster_ids.
  - intros i c Hc%list_elem_of_lookup_2%elem_of_cluster_ids. cbn.
    destruct (members_singleton pairs c) as [x ->]; [by rewrite Hsnd|done..].
Qed.





Lemma sorted_naturals s n : StronglySorted Z.le (Z.of_nat <$> seq s n).
Proof.
  revert s. induction n as [|n IH]; intros s; [constructor|].
  cbn. constructor; [apply IH|].
  apply Forall_fmap, Forall_forall. intros i Hi%elem_of_seq. cbn. lia.
Qed.

Lemma members_at (labels : list string) s i x :
  labels !! i = Some x →
  members (zip labels (Z.of_nat <$> seq s (length labels)))
    (Z.of_nat (s + i))
  = [x].
Proof.
  revert s i. induction labels as [|y labels IH]; intros s i Hi; [done|].
  change (zip (y :: labels) (Z.of_nat <$> seq s (length (y :: labels))))
    with ((y, Z.of_nat s)
          :: zip labels (Z.of_nat <$> seq (S s) (length labels))).
  rewrite members_cons. destruct i as [|i]; simplify_eq/=.
  - rewrite Nat.add_0_r, decide_True by done.
    rewrite members_nil; [done|].
    intros Hin%snd_zip_elem%list_elem_of_fmap.
    destruct Hin as (j & Hj & Hin%elem_of_seq). lia.
  - rewrite decide_False by lia. cbn.
    replace (s + S i)%nat with (S s + i)%nat by lia. by apply IH.
Qed.

Lemma getrow_all {A} (rs : list (list A)) :
  Forall2 (λ c row, np.getrow rs c = Ok row)
    (Z.of_nat <$> seq 0 (length rs)) rs.
Proof.
  apply Forall2_same_length_lookup_2.
  { by rewrite length_fmap, length_seq. }
  intros i c row Hc Hrow.
  apply list_lookup_fmap_Some in Hc as (j & -> & [-> _]%lookup_seq).
  rewrite Nat.add_0_l.
  destruct (getrow_Ok rs (Z.of_nat i)) as (row' & -> & Hrow').
  { apply lookup_lt_Some in Hrow. lia. }
  rewrite Nat2Z.id in Hrow'. congruence.
Qed.

(** X15.  Transposing back undoes the transposition: when the clusterer
    keeps every mutation apart, in column order, each with itself as
    centroid, the reduced matrix is the input matrix, data and mutation
    labels. *)
Theorem identity_clustering_round_trip s g lm lc ll ncols rows cells labels
    k n verbose f :
  genotype_matrix_at s g lm lc ll ncols rows cells labels →
  (0 < ncols)%nat →
  positive_integer k → positive_integer n →
  fit_predict (km_of k n verbose) (np.transpose (np.Arr2 ncols rows))
  = Ok f →
  labels_ f = Z.of_nat <$> seq 0 ncols →
  cluster_centroids_ f = np.column 0 rows <$> seq 0 ncols →
  ∃ r lm' ll' s',
    cluster_mutations fit_predict format g k n verbose s = (Ok r, s')
    ∧ heap s' !! r = Some (PyGenotypeMatrix lm' lc ll')
    ∧ heap s' !! lm' = Some (PyArray (np.Arr2 ncols rows))
    ∧ heap s' !! ll' = Some (PyList labels).
Proof.
  intros (Hg & Hm & _ & Hl & Hrows & Hlabels & _) Hcols
    Hk%rejected_false Hn%rejected_false Hfit Hids Hcents.
  set (cols := np.column 0 rows <$> seq 0 ncols) in *.
  assert (length cols = ncols) as Hlcols
    by (unfold cols; by rewrite length_fmap, length_seq).
  assert (cluster_ids (zip labels (labels_ f)) = Z.of_nat <$> seq 0 ncols)
    as Hcids.
  { apply (StronglySorted_unique Z.le);
      [apply cluster_ids_sorted|apply sorted_naturals|].
    apply NoDup_Permutation; [apply NoDup_cluster_ids| |].
    - apply (NoDup_fmap_2 _), NoDup_seq.
    - intros c. rewrite elem_of_cluster_ids, snd_zip, Hids; [done|].
      rewrite Hids, length_fmap, length_seq. lia. }
  destruct (cluster_mutations_run fit_predict format s g lm lc ll _ labels
              k n verbose f cols (np.Arr2 (length rows) cols)
              Hg Hm Hl Hk Hn Hfit)
    as (r & lm' & ll' & s' & Hrun & Hr & Hlm & Hll & _).
  { rewrite Hcids, Hcents, <- Hlcols. apply getrow_all. }
  { rewrite (array_Ok (length rows)).
    - destruct cols; [cbn in Hlcols; lia|done].
    - apply Forall_fmap, Forall_forall. intros j _. cbn.
      unfold np.column. by rewrite length_fmap. }
  exists r, lm', ll', s'. split; [done|]. split; [done|]. split.
  - rewrite Hlm. do 2 f_equal. cbn [np.transpose]. rewrite Hlcols.
    f_equal. apply list_eq. intros i. rewrite list_lookup_fmap.
    destruct (rows !! i) as [row|] eqn:Hi.
    + rewrite lookup_seq_lt by (by eapply lookup_lt_Some). cbn. f_equal.
      by apply (column_transposed ncols rows i row).
    + rewrite lookup_seq_ge; [done|]. by apply lookup_ge_None.
  - rewrite Hll, Hcids, Hids. do 2 f_equal. rewrite <- list_fmap_compose.
    apply list_eq. intros i. rewrite list_lookup_fmap.
    destruct (labels !! i) as [x|] eqn:Hi.
    + rewrite lookup_seq_lt by (apply lookup_lt_Some in Hi; lia). cbn.
      rewrite <- Hlabels.
      pose proof (members_at labels 0 i x Hi) as Hat.
      rewrite Nat.add_0_l in Hat. by rewrite Hat.
    + rewrite lookup_seq_ge; [done|]. apply lookup_ge_None in Hi. lia.
Qed.

End run_more.

(** ** The further properties on the first instance *)

Section instances_more.

(** X8 with a clusterer that fails. *)
Lemma clusterer_error_propagates_witness :
  cluster_mutations failing_clusterer example_format 1%positive
    (py.Int 2) (py.Int 10) false example_state
  = (Raise (External "kmodes"),
     {| heap := heap example_state;
        fit_calls := [(km_of (py.Int 2) (py.Int 10) false,
                       np.transpose (np.Arr2 3 [[0; 1; 2]; [1; 1; 0]]))] |}).
Proof.
  exact (clusterer_error_propagates failing_clusterer example_format
           example_state 1%positive 2%positive 3%positive 4%positive
           (np.Arr2 3 [[0; 1; 2]; [1; 1; 0]]) (py.Int 2) (py.Int 10) false
           (External "kmodes")
           eq_refl eq_refl (positive_integer_int 2 ltac:(lia))
           (positive_integer_int 10 ltac:(lia)) eq_refl).
Defined.

(** X9 with the ids [0; 5; 0] and two centroids. *)
Lemma stray_cluster_id_raises_witness :
  ∃ c,
    c ∈ [0; 5; 0] ∧ ¬ (-2 ≤ c < 2)
    ∧ (cluster_mutations stray_clusterer example_format 1%positive
         (py.Int 2) (py.Int 10) false example_state).1
      = Raise (IndexError c 2).
Proof.
  apply (stray_cluster_id_raises stray_clusterer example_format
           example_state 1%positive 2%positive 3%positive 4%positive
           (np.Arr2 3 [[0; 1; 2]; [1; 1; 0]]) ["m1"; "m2"; "m3"] (py.Int 2)
           (py.Int 10) false
           _ 5 eq_refl eq_refl eq_refl (positive_integer_int 2 ltac:(lia))
           (positive_integer_int 10 ltac:(lia)) eq_refl).
  - by apply (list_elem_of_lookup_2 _ 1%nat).
  - simpl. lia.
Defined.

(** X10 with two ids for three labels. *)
Lemma surplus_labels_dropped_witness :
  ∃ r s' lm' ll' out,
    cluster_mutations short_clusterer example_format 1%positive
      (py.Int 2) (py.Int 10) false example_state = (Ok r, s')
    ∧ heap s' !! r = Some (PyGenotypeMatrix lm' 3%positive ll')
    ∧ heap s' !! ll' = Some (PyList out)
    ∧ concat (py.split "," <$> out) ≡ₚ ["m1"; "m2"].
Proof.
  destruct (surplus_labels_dropped short_clusterer example_format
              example_state 1%positive 2%positive 3%positive 4%positive
              (np.Arr2 3 [[0; 1; 2]; [1; 1; 0]]) ["m1"; "m2"; "m3"] (py.Int 2)
              (py.Int 10)
              false _ _ _ eq_refl eq_refl eq_refl
              (positive_integer_int 2 ltac:(lia))
           (positive_integer_int 10 ltac:(lia)) eq_refl
              ltac:(repeat constructor)
              ltac:(vm_compute; reflexivity))
    as (lm' & ll' & out & Hr & Hll & Hout).
  eexists _, _, lm', ll', out. split; [vm_compute; reflexivity|].
  split; [exact Hr|]. split; [exact Hll|exact Hout].
Defined.

(** X11 with a clusterer that returns nothing. *)
Lemma empty_assignment_witness :
  ∃ r lm' ll' s',
    cluster_mutations empty_clusterer example_format 1%positive
      (py.Int 2) (py.Int 10) false example_state = (Ok r, s')
    ∧ heap s' !! r = Some (PyGenotypeMatrix lm' 3%positive ll')
    ∧ heap s' !! lm' = Some (PyArray (np.Arr1 []))
    ∧ heap s' !! ll' = Some (PyList []).
Proof.
  exact (empty_assignment empty_clusterer example_format example_state
           1%positive 2%positive 3%positive 4%positive
           (np.Arr2 3 [[0; 1; 2]; [1; 1; 0]])
           ["m1"; "m2"; "m3"] (py.Int 2) (py.Int 10) false _
           eq_refl eq_refl eq_refl (positive_integer_int 2 ltac:(lia))
           (positive_integer_int 10 ltac:(lia)) eq_refl (or_intror eq_refl)).
Defined.

(** X12 on the instance, with [verbose] set. *)
Lemma clusterer_called_on_columns_witness :
  ∃ km points,
    fit_calls (cluster_mutations example_clusterer example_format 1%positive
                 (py.Int 2) (py.Int 10) true example_state).2
    = [] ++ [(km, np.Arr2 2 points)]
    ∧ n_clusters km = py.Int 2 ∧ n_init km = py.Int 10 ∧ init km = "huang"
    ∧ verbose km = 1
    ∧ (∀ x y, cat_dissim km x y = _conflict_dissim x y)
    ∧ length points = 3%nat
    ∧ ∀ j, (j < 3)%nat → points !! j = Some
    ((λ row, nth j row 0) <$> [[0; 1; 2]; [1; 1; 0]]).
Proof.
  exact (clusterer_called_on_columns example_clusterer example_format
           example_state 1%positive 2%positive 3%positive 4%positive 3
           [[0; 1; 2]; [1; 1; 0]] ["c1"; "c2"] ["m1"; "m2"; "m3"] (py.Int 2)
           (py.Int 10) true
           example_matrix (positive_integer_int 2 ltac:(lia))
           (positive_integer_int 10 ltac:(lia))).
Defined.

(** X13 with the ids [2; 0; 1]. *)
Lemma distinct_clusters_keep_labels_witness :
  ∃ r lm' ll' s' out,
    cluster_mutations distinct_clusterer example_format 1%positive
      (py.Int 3) (py.Int 10) false example_state = (Ok r, s')
    ∧ heap s' !! r = Some (PyGenotypeMatrix lm' 3%positive ll')
    ∧ heap s' !! ll' = Some (PyList out)
    ∧ out ≡ₚ ["m1"; "m2"; "m3"].
Proof.
  apply (distinct_clusters_keep_labels distinct_clusterer example_format
           example_state 1%positive 2%positive 3%positive 4%positive 3
           [[0; 1; 2]; [1; 1; 0]] ["c1"; "c2"] ["m1"; "m2"; "m3"] (py.Int 3)
           (py.Int 10) false
           _ example_matrix (positive_integer_int 3 ltac:(lia))
           (positive_integer_int 10 ltac:(lia)) eq_refl).
  - repeat split; repeat constructor; simpl; lia.
  - simpl. by apply (bool_decide_unpack (NoDup [2; 0; 1])).
Defined.


(** X15 with the ids [0; 1; 2] and the columns as centroids. *)
Lemma identity_clustering_round_trip_witness :
  ∃ r lm' ll' s',
    cluster_mutations identity_clusterer example_format 1%positive
      (py.Int 3) (py.Int 10) false example_state = (Ok r, s')
    ∧ heap s' !! r = Some (PyGenotypeMatrix lm' 3%positive ll')
    ∧ heap s' !! lm' = Some (PyArray (np.Arr2 3 [[0; 1; 2]; [1; 1; 0]]))
    ∧ heap s' !! ll' = Some (PyList ["m1"; "m2"; "m3"]).
Proof.
  exact (identity_clustering_round_trip identity_clusterer example_format
           example_state 1%positive 2%positive 3%positive 4%positive 3
           [[0; 1; 2]; [1; 1; 0]] ["c1"; "c2"] ["m1"; "m2"; "m3"] (py.Int 3)
           (py.Int 10) false
           _ example_matrix ltac:(lia)
           (positive_integer_int 3 ltac:(lia))
           (positive_integer_int 10 ltac:(lia)) eq_refl eq_refl eq_refl).
Defined.

End instances_more.
